(** * Insurance recommendation back end: validator, engine and audit write

    A shallow embedding of [backend/index.js]: the request validator
    [validateRecommendationInput], the rules engine [getRecommendation] and the
    [POST /recommendation] handler with its best-effort database write.

    JavaScript Numbers are IEEE-754 binary64 values; they are modelled by the
    kernel's primitive [float], whose operations are the binary64 operations
    (round to nearest, ties to even).  Nothing about the arithmetic is
    idealised: [1.2], [0.8] and [1.3] below are the nearest doubles, exactly as
    in the JavaScript source. *)

From Stdlib Require Import ZArith QArith Qround Floats Uint63 String Ascii List Bool Lia.
From stdpp Require Import base option strings gmap.

Set Warnings "-inexact-float".
Local Open Scope Z_scope.

(** ** JavaScript Numbers *)

Module JsNumber.

(** The Number denoted by an integer literal (or an integer in a JSON text).
    Exact whenever [|z| < 2^53]. *)
Definition Z2Num (z : Z) : float :=
  if z <? 0 then PrimFloat.opp (of_uint63 (Uint63.of_Z (- z)))
  else of_uint63 (Uint63.of_Z z).

(** The mathematical value of a Number when that value is an integer.

    A finite non-zero [x] is [+/- m * 2^(se - 2154)], where [m] is its
    53-bit significand and [se] the shifted exponent that [frshiftexp]
    returns.  From [se = 2154] on the value is the integer [m * 2^(se - 2154)];
    below [se = 2101] its magnitude is under one half; in between it is
    [m / 2^s] with [1 <= s <= 53], an integer when the low [s] bits of [m]
    are zero. *)
Definition Num2Z (x : float) : option Z :=
  match classify x with
  | NaN | PInf | NInf => None
  | PZero | NZero => Some 0
  | _ =>
      let (f, se) := frshiftexp x in
      let m := normfr_mantissa f in
      let sign := if (x <? 0)%float then (-1) else 1 in
      if (2154 <=? se)%uint63 then Some (sign * (to_Z m * 2 ^ (to_Z se - 2154)))
      else if (se <? 2101)%uint63 then None
      else
        let s := (2154 - se)%uint63 in
        if ((m >> s) << s =? m)%uint63 then Some (sign * to_Z (m >> s))
        else None
  end.

(** [Number.isInteger] on a Number: finite and without fractional part. *)
Definition isInteger (x : float) : bool :=
  match Num2Z x with Some _ => true | None => false end.

(** [Math.round]: the integral Number closest to [x], ties going towards
    +infinity; NaN, the infinities and the zeros are returned unchanged, and a
    negative argument that rounds to zero gives [-0].

    A finite non-zero [x] is [+/- m / 2^s] with [m] its 53-bit significand.
    For [s <= 0] it is integral already; for [s > 53] its magnitude is below
    one half.  Otherwise [floor (m / 2^s + 1/2)] is
    [((m >> (s-1)) + 1) >> 1], and for a negative [x] the result is minus
    [ceil (m / 2^s - 1/2) = (ceil (m / 2^(s-1))) >> 1]. *)
Definition Math_round (x : float) : float :=
  match classify x with
  | NaN | PInf | NInf | PZero | NZero => x
  | _ =>
      let (f, se) := frshiftexp x in
      let m := normfr_mantissa f in
      (* |x| = m * 2^(se - 2101 - 53) *)
      if (2154 <=? se)%uint63 then x
      else if (se <? 2101)%uint63 then
        (if (x <? 0)%float then PrimFloat.neg_zero else PrimFloat.zero)
      else
        let s := (2154 - se)%uint63 in
        if (x <? 0)%float then
          let n := (((m + (1 << (s - 1)) - 1) >> (s - 1)) >> 1)%uint63 in
          if (n =? 0)%uint63 then PrimFloat.neg_zero else PrimFloat.opp (of_uint63 n)
        else of_uint63 (((m >> (s - 1)) + 1) >> 1)%uint63
  end.

End JsNumber.
Export JsNumber.

(** ** Number formatting *)

Module JsFormat.

Definition digitChar (d : Z) : ascii := ascii_of_nat (48 + Z.to_nat d).

(** Decimal digits of a natural number, least significant first. *)
Fixpoint digitsRev (fuel : nat) (n : Z) : list ascii :=
  match fuel with
  | O => []
  | S fuel' =>
      if n <? 10 then [digitChar n]
      else digitChar (n mod 10) :: digitsRev fuel' (n / 10)
  end.

Definition decimalRev (n : Z) : list ascii :=
  digitsRev (S (Z.to_nat (Z.log2 n))) n.

Definition string_of_chars (cs : list ascii) : string :=
  fold_right String EmptyString cs.

(** [String(n)] for a non-negative integer below 1e21. *)
Definition decimal (n : Z) : string := string_of_chars (rev (decimalRev n)).

(** Thousands separators, on the digits taken least significant first. *)
Fixpoint commasRev (ds : list ascii) : list ascii :=
  match ds with
  | a :: b :: c :: ((_ :: _) as more) => a :: b :: c :: ","%char :: commasRev more
  | _ => ds
  end.

Definition grouped (n : Z) : string :=
  string_of_chars (rev (commasRev (decimalRev n))).

(** The magnitude of a finite Number in thousandths, rounded half away from
    zero: the three fraction digits the default number format keeps. *)
Definition thousandths (x : float) : Z :=
  let (f, se) := frshiftexp x in
  let m := to_Z (normfr_mantissa f) in
  let e := to_Z se - 2154 in
  if 0 <=? e then m * 2 ^ e * 1000
  else (2 * (m * 1000) + 2 ^ (- e)) / (2 * 2 ^ (- e)).

Definition fraction (t : Z) : string :=
  if t =? 0 then ""
  else
    let d1 := t / 100 in
    let d2 := t / 10 mod 10 in
    let d3 := t mod 10 in
    let ds :=
      if d3 =? 0 then (if d2 =? 0 then [d1] else [d1; d2]) else [d1; d2; d3] in
    String "."%char (string_of_chars (map digitChar ds)).

(** [Number.prototype.toLocaleString()] with no arguments, for the [en-US]
    locale the server runs in: grouping by thousands, at most three fraction
    digits, no exponent notation. *)
Definition toLocaleString (x : float) : string :=
  match classify x with
  | NaN => "NaN"
  | PInf => "∞"
  | NInf => "-∞"
  | _ =>
      let sign := if get_sign x then "-" else "" in
      match Num2Z x with
      | Some z => sign +:+ grouped (Z.abs z)
      | None =>
          let t := thousandths x in
          sign +:+ grouped (t / 1000) +:+ fraction (t mod 1000)
      end
  end.

End JsFormat.
Export JsFormat.

(** ** The rules engine: [getRecommendation] *)

Record Profile : Type := mkProfile {
  age : float;
  income : float;
  dependents : float;
  riskTolerance : string
}.

(** The four local variables of [getRecommendation]. *)
Record Locals : Type := mkLocals {
  l_type : string;
  l_coverage : float;
  l_duration : Z;
  l_explanation : string
}.

Record Recommendation : Type := mkRecommendation {
  type : string;
  coverage : string;
  duration : string;
  explanation : string
}.

Section Engine.
Local Open Scope float_scope.

(** [let type = 'Term Life'; let coverage = income * 10;
     let duration = 20; let explanation = '';] *)
Definition initialLocals (p : Profile) : Locals :=
  {| l_type := "Term Life";
     l_coverage := income p * 10;
     l_duration := 20;
     l_explanation := "" |}.

(** [if (dependents > 0) coverage += dependents * 250000;] *)
Definition adjustForDependents (p : Profile) (l : Locals) : Locals :=
  if 0 <? dependents p
  then {| l_type := l_type l;
          l_coverage := l_coverage l + dependents p * 250000;
          l_duration := l_duration l;
          l_explanation := l_explanation l |}
  else l.

(** [if (age < 30) coverage *= 1.2; else if (age > 50) coverage *= 0.8;] *)
Definition adjustForAge (p : Profile) (l : Locals) : Locals :=
  if age p <? 30
  then {| l_type := l_type l;
          l_coverage := l_coverage l * 1.2;
          l_duration := l_duration l;
          l_explanation := l_explanation l |}
  else if 50 <? age p
  then {| l_type := l_type l;
          l_coverage := l_coverage l * 0.8;
          l_duration := l_duration l;
          l_explanation := l_explanation l |}
  else l.

(** [switch (riskTolerance) { case 'Low': ... case 'Medium': ...
     case 'High': ... }], which has no [default] branch. *)
Definition adjustForRisk (p : Profile) (l : Locals) : Locals :=
  if String.eqb (riskTolerance p) "Low"
  then {| l_type := l_type l;
          l_coverage := l_coverage l * 0.8;
          l_duration := 15;
          l_explanation := "Conservative profile: moderate coverage, shorter term." |}
  else if String.eqb (riskTolerance p) "Medium"
  then {| l_type := l_type l;
          l_coverage := l_coverage l;
          l_duration := 20;
          l_explanation := "Balanced profile: standard coverage and term." |}
  else if String.eqb (riskTolerance p) "High"
  then {| l_type := "Whole Life";
          l_coverage := l_coverage l * 1.3;
          l_duration := 30;
          l_explanation :=
            "Aggressive profile: higher coverage, longer term, whole life." |}
  else l.

(** [coverage = Math.round(coverage / 1000) * 1000;] *)
Definition roundCoverage (l : Locals) : Locals :=
  {| l_type := l_type l;
     l_coverage := Math_round (l_coverage l / 1000) * 1000;
     l_duration := l_duration l;
     l_explanation := l_explanation l |}.

(** The locals when control reaches the [return] statement. *)
Definition finalLocals (p : Profile) : Locals :=
  roundCoverage
    (adjustForRisk p (adjustForAge p (adjustForDependents p (initialLocals p)))).

(** The coverage amount: the Number held by [coverage] at the [return]. *)
Definition coverageAmount (p : Profile) : float := l_coverage (finalLocals p).

Definition getRecommendation (p : Profile) : Recommendation :=
  let l := finalLocals p in
  {| type := l_type l;
     coverage := "$" +:+ toLocaleString (l_coverage l);
     duration := decimal (l_duration l) +:+ " years";
     explanation := l_explanation l |}.

End Engine.

(** A profile whose three Numbers are the given integers. *)
Definition profileOf (a i d : Z) (r : string) : Profile :=
  {| age := Z2Num a; income := Z2Num i; dependents := Z2Num d; riskTolerance := r |}.


(** ** Request bodies *)

(** The values a parsed JSON body can hold in a field, with [JsUndefined] for a
    field that is absent.  Arrays and nested objects are object references:
    truthy, never an integer, never equal to a string. *)
Inductive JsValue : Type :=
  | JsUndefined
  | JsNull
  | JsBool (b : bool)
  | JsNumber (x : float)
  | JsString (s : string)
  | JsObject.

(** [req.body.k] *)
Definition prop (body : gmap string JsValue) (k : string) : JsValue :=
  default JsUndefined (body !! k).

(** ToBoolean, as applied by [!v]. *)
Definition truthy (v : JsValue) : bool :=
  match v with
  | JsUndefined | JsNull => false
  | JsBool b => b
  | JsNumber x => negb (PrimFloat.is_zero x || PrimFloat.is_nan x)
  | JsString s => negb (String.eqb s "")
  | JsObject => true
  end.

(** [!Number.isInteger(v) || v < lo || v > hi]: the comparisons are evaluated
    only after [Number.isInteger(v)] held, hence on a Number. *)
Definition notIntegerBetween (v : JsValue) (lo hi : float) : bool :=
  match v with
  | JsNumber x => negb (isInteger x) || (x <? lo)%float || (hi <? x)%float
  | _ => true
  end.

(** [['Low', 'Medium', 'High'].includes(v)] *)
Definition includesRisk (v : JsValue) : bool :=
  match v with
  | JsString s => existsb (String.eqb s) ["Low"; "Medium"; "High"]%string
  | _ => false
  end.

(** ** Responses *)

Inductive Payload : Type :=
  | ErrorJson (error : string) (required : option (list string))
              (message : option string)
  | SuccessJson (recommendation : Recommendation) (timestamp : string).

Record Response : Type := mkResponse {
  status : Z;
  payload : Payload
}.

Definition badRequest (error : string) (required : option (list string)) : Response :=
  {| status := 400; payload := ErrorJson error required None |}.

(** ** The validation middleware *)

(** Either the middleware answered the request itself, or it called [next()]. *)
Inductive Verdict : Type :=
  | Respond (r : Response)
  | Next.

Definition validateRecommendationInput (body : gmap string JsValue) : Verdict :=
  let age := prop body "age" in
  let income := prop body "income" in
  let dependents := prop body "dependents" in
  let riskTolerance := prop body "riskTolerance" in
  if negb (truthy age) || negb (truthy income) || negb (truthy dependents)
     || negb (truthy riskTolerance)
  then Respond (badRequest "Missing required fields"
                  (Some ["age"; "income"; "dependents"; "riskTolerance"]%string))
  else if notIntegerBetween age 18 80
  then Respond (badRequest "Age must be an integer between 18 and 80" None)
  else if notIntegerBetween income 20000 10000000
  then Respond (badRequest "Income must be an integer between 20,000 and 10,000,000" None)
  else if notIntegerBetween dependents 0 10
  then Respond (badRequest "Dependents must be an integer between 0 and 10" None)
  else if negb (includesRisk riskTolerance)
  then Respond (badRequest "Risk tolerance must be Low, Medium, or High" None)
  else Next.

(** ** Effects of the route handler *)

(** What a [try] block can catch here: the rejection of the query promise, or
    the TypeError of reading [.id] from a missing first row. *)
Inductive Thrown : Type :=
  | QueryRejected (reason : string)
  | TypeError (what : string).

Inductive LogLine : Type :=
  | ConsoleLog (text : string)
  | ConsoleError (label : string) (e : Thrown).

(** Computations that write to the console and may throw. *)
Definition Eff (A : Type) : Type := list LogLine -> (Thrown + A) * list LogLine.

Definition ret {A} (a : A) : Eff A := fun log => (inr a, log).

Definition bind {A B} (m : Eff A) (k : A -> Eff B) : Eff B :=
  fun log =>
    match m log with
    | (inr a, log') => k a log'
    | (inl e, log') => (inl e, log')
    end.

Definition throw {A} (e : Thrown) : Eff A := fun log => (inl e, log).

(** [try { body } catch (e) { handler(e) }] *)
Definition tryCatch {A} (body : Eff A) (handler : Thrown -> Eff A) : Eff A :=
  fun log =>
    match body log with
    | (inr a, log') => (inr a, log')
    | (inl e, log') => handler e log'
    end.

Definition console_log (text : string) : Eff unit :=
  fun log => (inr tt, log ++ [ConsoleLog text]).

Definition console_error (label : string) (e : Thrown) : Eff unit :=
  fun log => (inr tt, log ++ [ConsoleError label e]).

Notation "'let!' x ':=' m 'in' k" := (bind m (fun x => k))
  (at level 10, x name, m at level 100, k at level 200, only parsing).
Notation "m ';;' k" := (bind m (fun _ => k))
  (at level 100, k at level 200, right associativity, only parsing).

(** The parameters of the INSERT statement, in the order of [values]. *)
Record Submission : Type := mkSubmission {
  s_age : float;
  s_income : float;
  s_dependents : float;
  s_risk_tolerance : string;
  s_recommendation_type : string;
  s_coverage : string;
  s_duration : string;
  s_explanation : string
}.

(** The outside world of one request: what [await pool.query(query, values)]
    yields (the returned rows, by their [id], or the rejection reason) and what
    [new Date().toISOString()] reads when the response is built. *)
Record Env : Type := mkEnv {
  pool_query : Submission -> Thrown + list Z;
  now : string
}.

Definition await {A} (outcome : Thrown + A) : Eff A :=
  match outcome with
  | inr a => ret a
  | inl e => throw e
  end.

(** [result.rows[0].id] *)
Definition firstRowId (rows : list Z) : Eff Z :=
  match rows with
  | id :: _ => ret id
  | [] => throw (TypeError "Cannot read properties of undefined (reading 'id')")
  end.

(** The body of the route handler, entered after [next()] with the Numbers and
    the string that the middleware accepted. *)
Definition recommendationHandler (env : Env) (p : Profile) : Eff Response :=
  tryCatch
    (let recommendation := getRecommendation p in
     tryCatch
       (let values :=
          {| s_age := age p;
             s_income := income p;
             s_dependents := dependents p;
             s_risk_tolerance := riskTolerance p;
             s_recommendation_type := type recommendation;
             s_coverage := coverage recommendation;
             s_duration := duration recommendation;
             s_explanation := explanation recommendation |} in
        let! rows := await (pool_query env values) in
        let! id := firstRowId rows in
        console_log ("Recommendation stored with ID: " +:+ decimal id))
       (fun dbError => console_error "Database error:" dbError) ;;
     ret {| status := 200;
            payload := SuccessJson recommendation (now env) |})
    (fun error =>
       console_error "Recommendation generation error:" error ;;
       ret {| status := 500;
              payload := ErrorJson "Internal server error" None
                           (Some "Failed to generate recommendation"%string) |}).

(** The destructured body as a profile; defined for the bodies whose first
    three fields are Numbers and whose last is a string. *)
Definition profileOfBody (body : gmap string JsValue) : option Profile :=
  match prop body "age", prop body "income", prop body "dependents",
        prop body "riskTolerance" with
  | JsNumber a, JsNumber i, JsNumber d, JsString r => Some (mkProfile a i d r)
  | _, _, _, _ => None
  end.

(** [app.post('/recommendation', validateRecommendationInput, async ...)].
    The middleware lets through only bodies that [profileOfBody] reads
    ([accepted_body_is_profile] below), so the last branch is never taken. *)
Definition postRecommendation (env : Env) (body : gmap string JsValue)
  : Eff Response :=
  match validateRecommendationInput body with
  | Respond r => ret r
  | Next =>
      match profileOfBody body with
      | Some p => recommendationHandler env p
      | None => throw (TypeError "unvalidated body")
      end
  end.

Definition body4 (a i d r : JsValue) : gmap string JsValue :=
  {[ "age"%string := a; "income"%string := i; "dependents"%string := d;
     "riskTolerance"%string := r ]}.


(** ** The specification's arithmetic *)

Inductive RiskTolerance : Type := Low | Medium | High.

Definition riskName (r : RiskTolerance) : string :=
  match r with
  | Low => "Low"
  | Medium => "Medium"
  | High => "High"
  end.

(** Steps 1 to 5 of the engine's algorithm as the specification words them,
    over the rationals: base [income * 10], plus [dependents * 250000], the age
    multiplier, the risk multiplier, then round-half-up of [coverage / 1000]
    times 1000. *)
Definition spec_coverage (a i d : Z) (r : RiskTolerance) : Z :=
  let base := (inject_Z i * 10)%Q in
  let withDependents := (base + inject_Z d * 250000)%Q in
  let withAge :=
    if a <? 30 then (withDependents * (12 # 10))%Q
    else if 50 <? a then (withDependents * (8 # 10))%Q
    else withDependents in
  let withRisk :=
    match r with
    | Low => (withAge * (8 # 10))%Q
    | Medium => withAge
    | High => (withAge * (13 # 10))%Q
    end in
  Qfloor (withRisk / 1000 + (1 # 2))%Q * 1000.

(** The section 3 invariants of an applicant profile. *)
Definition validProfile (a i d : Z) : Prop :=
  18 <= a <= 80 /\ 20000 <= i <= 10000000 /\ 0 <= d <= 10.

(** ** The specification's invariants on a raw body *)

(** The raw value [v] is a Number whose value is an integer between [lo] and
    [hi]: neither another type, nor a fraction, nor out of range. *)
Definition integerWithin (lo hi : Z) (v : JsValue) : bool :=
  match v with
  | JsNumber x =>
      match Num2Z x with
      | Some z => (lo <=? z) && (z <=? hi)
      | None => false
      end
  | _ => false
  end.

(** The risk tolerance that the raw value [v] names, if any. *)
Definition riskOf (v : JsValue) : option RiskTolerance :=
  match v with
  | JsString s =>
      if String.eqb s "Low" then Some Low
      else if String.eqb s "Medium" then Some Medium
      else if String.eqb s "High" then Some High
      else None
  | _ => None
  end.

Definition riskListed (v : JsValue) : bool :=
  match riskOf v with Some _ => true | None => false end.

(** A raw body that satisfies the section 3 invariants: an integer age in
    18..80, an integer income in 20000..10000000, an integer number of
    dependents in 0..10 and one of the three risk tolerances. *)
Definition validRaw (body : gmap string JsValue) : bool :=
  integerWithin 18 80 (prop body "age")
  && integerWithin 20000 10000000 (prop body "income")
  && integerWithin 0 10 (prop body "dependents")
  && riskListed (prop body "riskTolerance").

(** ** Integral Numbers in the binary64 format *)

Definition signZ (s : bool) : Z := if s then -1 else 1.

(** [z] is [m * 2^e], stated without fractions. *)
Definition scaled (m : positive) (e z : Z) : Prop :=
  if 0 <=? e then z = Z.pos m * 2 ^ e else z * 2 ^ (- e) = Z.pos m.

(** The binary64 datum [f] is a zero, or has a full 53-bit significand, and
    its value is the integer [z]. *)
Definition integerValue (f : spec_float) (z : Z) : Prop :=
  match f with
  | S754_zero _ => z = 0
  | S754_finite s m e =>
      Z.pos (digits2_pos m) = 53
      /\ (if 0 <=? e then z = signZ s * (Z.pos m * 2 ^ e)
          else z * 2 ^ (- e) = signZ s * Z.pos m)
  | _ => False
  end.

(** ** Exhaustive checks over integer ranges *)

Section Ranges.

(** [allFrom depth width lo P] tests [P] on the [2^depth] machine integers
    from [lo] on; [width] is [2^depth]. *)
Fixpoint allFrom (depth : nat) (width lo : int) (P : int -> bool) : bool :=
  match depth with
  | O => P lo
  | S depth' =>
      let half := (width >> 1)%uint63 in
      allFrom depth' half lo P && allFrom depth' half (lo + half)%uint63 P
  end.

(** [P] holds on the integers from 0 to 10,485,759, which include every
    income and every [income + 25000 * dependents] of a valid profile. *)
Definition onAmounts (P : int -> bool) : Prop :=
  allFrom 23 8388608 0 P = true /\ allFrom 21 2097152 8388608 P = true.

(** [P] holds on the integers from 0 to 163,839, which include every
    coverage amount of a valid profile counted in thousands. *)
Definition onThousands (P : int -> bool) : Prop :=
  allFrom 17 131072 0 P = true /\ allFrom 15 32768 131072 P = true.

Definition allBetween (lo : Z) (count : nat) (P : Z -> bool) : bool :=
  forallb P (map (fun j => lo + Z.of_nat j) (seq 0 count)).

End Ranges.


(** ** The engine's arithmetic on machine integers *)

Section Checks.
Local Open Scope float_scope.

(** [coverage *= m], or nothing when the branch taken has no multiplier. *)
Definition times (m : option float) (c : float) : float :=
  match m with
  | Some f => c * f
  | None => c
  end.

(** The coverage after the age step, the risk step and the rounding, from
    the coverage [c] that the dependents step left. *)
Definition settle (ageFactor riskFactor : option float) (c : float) : float :=
  Math_round (times riskFactor (times ageFactor c) / 1000) * 1000.

(** The multiplier of the age branch taken, and the same in tenths. *)
Definition ageFactor (a : Z) : option float :=
  if (a <? 30)%Z then Some 1.2 else if (50 <? a)%Z then Some 0.8 else None.

Definition ageTenths (a : Z) : Z :=
  if (a <? 30)%Z then 12 else if (50 <? a)%Z then 8 else 10.

(** The multiplier of the [switch] case taken, and the same in tenths. *)
Definition riskFactor (r : RiskTolerance) : option float :=
  match r with
  | Low => Some 0.8
  | Medium => None
  | High => Some 1.3
  end.

Definition riskTenths (r : RiskTolerance) : Z :=
  match r with
  | Low => 8
  | Medium => 10
  | High => 13
  end.

(** Round-half-up of [10 * k * (an / 10) * (rn / 10) / 1000], times 1000. *)
Definition exactZ (an rn k : Z) : Z :=
  ((2 * (k * (an * rn)) + 10000) / 20000 * 1000)%Z.

(** [x], rounded as the engine rounds, is the Number of the integer
    round-half-up of [kh / 10000], times 1000; [kh] is [k] times the two
    multipliers in tenths. *)
Definition agrees (x : float) (kh : int) : bool :=
  Leibniz.eqb (Math_round (x / 1000) * 1000)
              (of_uint63 ((2 * kh + 10000) / 20000 * 1000)%uint63).

(** For [k = income + 25000 * dependents] of a valid profile, the engine's
    arithmetic from the Number [10 * k] on gives the exact rounded amount, in
    each combination of age bracket and risk tolerance. *)
Definition settleExact (k : int) : bool :=
  if (k <? 20000)%uint63 then true
  else if (10250000 <? k)%uint63 then true
  else
    let c := of_uint63 (k * 10)%uint63 in
    let young := c * 1.2 in
    let old := c * 0.8 in
    agrees (young * 0.8) (k * 96)%uint63
    && agrees young (k * 120)%uint63
    && agrees (young * 1.3) (k * 156)%uint63
    && agrees (c * 0.8) (k * 80)%uint63
    && agrees c (k * 100)%uint63
    && agrees (c * 1.3) (k * 130)%uint63
    && agrees (old * 0.8) (k * 64)%uint63
    && agrees (old * 1.3) (k * 104)%uint63.

(** [c + y] is computed without rounding, [c] and [y] being the Numbers of
    the integers [n] and [m]. *)
Definition sums (c : float) (n : int) (y : float) (m : int) : bool :=
  Leibniz.eqb (c + y) (of_uint63 (n + m)%uint63).

(** For a valid income [i], [i * 10] and [i * 10 + d * 250000] for one to
    ten dependents are computed without rounding. *)
Definition baseExact (i : int) : bool :=
  if (i <? 20000)%uint63 then true
  else if (10000000 <? i)%uint63 then true
  else
    let n := (i * 10)%uint63 in
    let c := of_uint63 i * 10 in
    Leibniz.eqb c (of_uint63 n)
    && sums c n 250000 250000
    && sums c n 500000 500000
    && sums c n 750000 750000
    && sums c n 1000000 1000000
    && sums c n 1250000 1250000
    && sums c n 1500000 1500000
    && sums c n 1750000 1750000
    && sums c n 2000000 2000000
    && sums c n 2250000 2250000
    && sums c n 2500000 2500000.

(** The Number of a multiple of 1000 is finite, not negative, and has that
    multiple as its value. *)
Definition thousandExact (n : int) : bool :=
  let x := of_uint63 (n * 1000)%uint63 in
  match classify x with
  | NaN | PInf | NInf => false
  | _ =>
      negb (get_sign x)
      && match Num2Z x with
         | Some z => (z =? to_Z (n * 1000)%uint63)%Z
         | None => false
         end
  end.

(** The comparisons of the engine on the Number of an integer agree with
    the comparisons of the integer. *)
Definition ageCompared (a : Z) : bool :=
  Bool.eqb (Z2Num a <? 30) (a <? 30)%Z && Bool.eqb (50 <? Z2Num a) (50 <? a)%Z.

End Checks.

(** ** Named responses and reference requests *)

Definition missingFieldsResponse : Response :=
  badRequest "Missing required fields"
    (Some ["age"; "income"; "dependents"; "riskTolerance"]%string).

Definition ageResponse : Response :=
  badRequest "Age must be an integer between 18 and 80" None.

Definition incomeResponse : Response :=
  badRequest "Income must be an integer between 20,000 and 10,000,000" None.

Definition dependentsResponse : Response :=
  badRequest "Dependents must be an integer between 0 and 10" None.

Definition riskResponse : Response :=
  badRequest "Risk tolerance must be Low, Medium, or High" None.

Definition rejections : list Response :=
  [missingFieldsResponse; ageResponse; incomeResponse; dependentsResponse;
   riskResponse].

(** The body whose fields are the given integers and risk tolerance. *)
Definition bodyOf (a i d : Z) (r : string) : gmap string JsValue :=
  body4 (JsNumber (Z2Num a)) (JsNumber (Z2Num i)) (JsNumber (Z2Num d)) (JsString r).

(** The request of the README: [{"age": 30, "income": 75000,
    "dependents": 2, "riskTolerance": "Medium"}]. *)
Definition readmeBody : gmap string JsValue := bodyOf 30 75000 2 "Medium".

Definition successResponse (p : Profile) (timestamp : string) : Response :=
  {| status := 200; payload := SuccessJson (getRecommendation p) timestamp |}.

(** A field holding the Number [x] passes the presence check and the check of
    its range. *)
Definition numberAccepted (x lo hi : float) : bool :=
  truthy (JsNumber x) && negb (notIntegerBetween (JsNumber x) lo hi).

Definition incomeAccepted (i : int) : bool :=
  if (i <? 20000)%uint63 then true
  else if (10000000 <? i)%uint63 then true
  else numberAccepted (of_uint63 i) 20000 10000000.

Definition ageAccepted (a : Z) : bool := numberAccepted (Z2Num a) 18 80.

Definition dependentsAccepted (d : Z) : bool := numberAccepted (Z2Num d) 0 10.

(** ** The INSERT parameters *)

(** [values] of the route handler: the four request fields, then the four
    fields of the recommendation. *)
Definition submissionOf (p : Profile) : Submission :=
  let recommendation := getRecommendation p in
  {| s_age := age p;
     s_income := income p;
     s_dependents := dependents p;
     s_risk_tolerance := riskTolerance p;
     s_recommendation_type := type recommendation;
     s_coverage := coverage recommendation;
     s_duration := duration recommendation;
     s_explanation := explanation recommendation |}.

(** The console line that one accepted request leaves, by what the store
    did with the INSERT. *)
Definition storeLine (outcome : Thrown + list Z) : LogLine :=
  match outcome with
  | inr (id :: _) => ConsoleLog ("Recommendation stored with ID: " +:+ decimal id)
  | inr [] =>
      ConsoleError "Database error:"
        (TypeError "Cannot read properties of undefined (reading 'id')")
  | inl e => ConsoleError "Database error:" e
  end.

(** ** The form of the front end ([frontend/src/app/page.tsx]) *)

Record FormData : Type := mkFormData {
  f_age : float;
  f_income : float;
  f_dependents : float;
  f_riskTolerance : string
}.

(** The component state: [formData], [recommendation], [isSubmitted],
    [loading], [error]. *)
Record UiState : Type := mkUiState {
  formData : FormData;
  recommendation : option Recommendation;
  isSubmitted : bool;
  loading : bool;
  error : option string
}.

(** [useState] initial values. *)
Definition initialForm : FormData :=
  {| f_age := 0; f_income := 0; f_dependents := 0; f_riskTolerance := "Low" |}.

Definition initialUi : UiState :=
  {| formData := initialForm;
     recommendation := None;
     isSubmitted := false;
     loading := false;
     error := None |}.

(** A Number as [JSON.stringify] writes it and [express.json()] reads it
    back: NaN and the infinities become [null], and [-0] becomes [0]. *)
Definition jsonNumber (x : float) : JsValue :=
  match classify x with
  | NaN | PInf | NInf => JsNull
  | NZero => JsNumber 0
  | _ => JsNumber x
  end.

(** The body that [JSON.stringify(formData)] sends. *)
Definition requestBody (f : FormData) : gmap string JsValue :=
  body4 (jsonNumber (f_age f)) (jsonNumber (f_income f))
        (jsonNumber (f_dependents f)) (JsString (f_riskTolerance f)).

(** What [await fetch(...)] and [await res.json()] yield: an exception with
    its message, or the answer of the server. *)
Inductive FetchOutcome : Type :=
  | FetchFailed (message : string)
  | Fetched (res : Response).

(** [a || b] on strings that may be undefined. *)
Definition orElse (a : option string) (b : string) : string :=
  match a with
  | Some s => if String.eqb s "" then b else s
  | None => b
  end.

(** The message of the [Error] thrown inside the [try], or the
    recommendation to show. *)
Definition readAnswer (outcome : FetchOutcome) : string + Recommendation :=
  match outcome with
  | FetchFailed message => inl message
  | Fetched res =>
      if negb ((200 <=? status res) && (status res <=? 299))
      then
        match payload res with
        | ErrorJson e _ m => inl (orElse (Some e) (orElse m "Failed to get recommendation"))
        | SuccessJson _ _ => inl "Failed to get recommendation"%string
        end
      else
        match payload res with
        | SuccessJson r _ => inr r
        | ErrorJson _ _ _ => inl "Invalid response format from server"%string
        end
  end.

(** The state once [handleSubmit] has run to its [finally]. *)
Definition handleSubmit (st : UiState) (outcome : FetchOutcome) : UiState :=
  match readAnswer outcome with
  | inr r =>
      {| formData := formData st;
         recommendation := Some r;
         isSubmitted := true;
         loading := false;
         error := None |}
  | inl message =>
      {| formData := formData st;
         recommendation := None;
         isSubmitted := isSubmitted st;
         loading := false;
         error := Some (orElse (Some message) "An error occurred") |}
  end.


(** ** The table of submissions *)

(** The widths of the text columns that the INSERT fills:
    [risk_tolerance VARCHAR(10)], [recommendation_type VARCHAR(20)],
    [coverage VARCHAR(32)], [duration VARCHAR(16)]. *)
Definition fitsTextColumns (s : Submission) : Prop :=
  (String.length (s_risk_tolerance s) <= 10)%nat
  /\ (String.length (s_recommendation_type s) <= 20)%nat
  /\ (String.length (s_coverage s) <= 32)%nat
  /\ (String.length (s_duration s) <= 16)%nat.

(** * Properties *)

(** ** The exhaustive checks *)

Lemma settleExact_checked : onAmounts settleExact.
Proof. split; vm_cast_no_check (eq_refl true). Qed.

Lemma baseExact_checked : onAmounts baseExact.
Proof. split; vm_cast_no_check (eq_refl true). Qed.

Lemma thousandExact_checked : onThousands thousandExact.
Proof. split; vm_cast_no_check (eq_refl true). Qed.

Lemma incomeAccepted_checked : onAmounts incomeAccepted.
Proof. split; vm_cast_no_check (eq_refl true). Qed.

(** ** Soundness of the exhaustive checks *)

Lemma allFrom_sound (depth : nat) :
  forall (width lo : int) (P : int -> bool),
    to_Z width = 2 ^ Z.of_nat depth ->
    to_Z lo + 2 ^ Z.of_nat depth <= wB ->
    allFrom depth width lo P = true ->
    forall z, to_Z lo <= z < to_Z lo + 2 ^ Z.of_nat depth -> P (of_Z z) = true.
Proof.
  induction depth as [|depth IH]; intros width lo P Hw Hfit Hall z Hz.
  - simpl in *. replace z with (to_Z lo) by lia. now rewrite of_to_Z.
  - cbn [allFrom] in Hall. apply andb_prop in Hall as [Hleft Hright].
    assert (Hpow : 2 ^ Z.of_nat (S depth) = 2 * 2 ^ Z.of_nat depth).
    { rewrite Nat2Z.inj_succ, Z.pow_succ_r; lia. }
    assert (Hpos : 0 < 2 ^ Z.of_nat depth) by (apply Z.pow_pos_nonneg; lia).
    assert (Hhalf : to_Z (width >> 1)%uint63 = 2 ^ Z.of_nat depth).
    { rewrite lsr_spec, Hw, Hpow. change (to_Z 1) with 1. rewrite Z.pow_1_r.
      rewrite Z.mul_comm. apply Z.div_mul. lia. }
    pose proof (to_Z_bounded lo) as Hlo.
    destruct (Z_lt_ge_dec z (to_Z lo + 2 ^ Z.of_nat depth)) as [Hlt|Hge].
    + apply (IH _ lo P Hhalf); [lia|exact Hleft|lia].
    + assert (Hsum : to_Z (lo + (width >> 1))%uint63 = to_Z lo + 2 ^ Z.of_nat depth).
      { rewrite Uint63.add_spec, Hhalf. apply Z.mod_small. lia. }
      apply (IH _ (lo + (width >> 1))%uint63 P Hhalf); rewrite ?Hsum; [lia|exact Hright|lia].
Qed.

Lemma onAmounts_sound (P : int -> bool) :
  onAmounts P -> forall z, 0 <= z < 10485760 -> P (of_Z z) = true.
Proof.
  intros [Hlow Hhigh] z Hz.
  destruct (Z_lt_ge_dec z 8388608) as [Hlt|Hge].
  - apply (allFrom_sound 23 8388608 0 P).
    + reflexivity.
    + vm_compute. discriminate.
    + exact Hlow.
    + change (to_Z 0) with 0. change (2 ^ Z.of_nat 23) with 8388608. lia.
  - apply (allFrom_sound 21 2097152 8388608 P).
    + reflexivity.
    + vm_compute. discriminate.
    + exact Hhigh.
    + change (to_Z 8388608) with 8388608. change (2 ^ Z.of_nat 21) with 2097152. lia.
Qed.

Lemma onThousands_sound (P : int -> bool) :
  onThousands P -> forall z, 0 <= z < 163840 -> P (of_Z z) = true.
Proof.
  intros [Hlow Hhigh] z Hz.
  destruct (Z_lt_ge_dec z 131072) as [Hlt|Hge].
  - apply (allFrom_sound 17 131072 0 P).
    + reflexivity.
    + vm_compute. discriminate.
    + exact Hlow.
    + change (to_Z 0) with 0. change (2 ^ Z.of_nat 17) with 131072. lia.
  - apply (allFrom_sound 15 32768 131072 P).
    + reflexivity.
    + vm_compute. discriminate.
    + exact Hhigh.
    + change (to_Z 131072) with 131072. change (2 ^ Z.of_nat 15) with 32768. lia.
Qed.

Lemma allBetween_sound (lo : Z) (count : nat) (P : Z -> bool) :
  allBetween lo count P = true ->
  forall z, lo <= z < lo + Z.of_nat count -> P z = true.
Proof.
  unfold allBetween. intros Hall z Hz.
  rewrite forallb_forall in Hall. apply Hall.
  apply in_map_iff. exists (Z.to_nat (z - lo)). split; [lia|].
  apply in_seq. lia.
Qed.

(** ** The specification's rational arithmetic in closed form *)

Lemma round_half_up_tenths (x : Q) (k m : Z) :
  (x == inject_Z (10 * k * m) / 100)%Q ->
  Qfloor (x / 1000 + (1 # 2))%Q = (2 * (k * m) + 10000) / 20000.
Proof.
  intros Hx.
  assert (Heq : (x / 1000 + (1 # 2) == (2 * (k * m) + 10000) # 20000)%Q).
  { rewrite Hx. unfold Qeq, Qdiv, Qmult, Qplus, Qinv, inject_Z. simpl. lia. }
  rewrite (Qfloor_comp _ _ Heq). reflexivity.
Qed.

Lemma spec_coverage_closed (a i d : Z) (r : RiskTolerance) :
  spec_coverage a i d r = exactZ (ageTenths a) (riskTenths r) (i + 25000 * d).
Proof.
  unfold spec_coverage, exactZ, ageTenths. f_equal.
  apply round_half_up_tenths.
  destruct (a <? 30), (50 <? a), r; cbn [riskTenths];
    unfold Qeq, Qdiv, Qmult, Qplus, Qinv, inject_Z; simpl; lia.
Qed.

(** ** Machine integers and integers *)

Lemma of_Z_add (a b : Z) : of_Z (a + b) = (of_Z a + of_Z b)%uint63.
Proof.
  apply to_Z_inj. rewrite Uint63.add_spec, !of_Z_spec. apply Zplus_mod.
Qed.

Lemma of_Z_mul (a b : Z) : of_Z (a * b) = (of_Z a * of_Z b)%uint63.
Proof.
  apply to_Z_inj. rewrite Uint63.mul_spec, !of_Z_spec. apply Zmult_mod.
Qed.

Lemma to_Z_of_Z_small (z : Z) : 0 <= z < wB -> to_Z (of_Z z) = z.
Proof. intros Hz. rewrite of_Z_spec. now apply Z.mod_small. Qed.

Lemma of_Z_div (a b : Z) :
  0 <= a < wB -> 0 < b < wB -> of_Z (a / b) = (of_Z a / of_Z b)%uint63.
Proof.
  intros Ha Hb. apply to_Z_inj.
  rewrite Uint63.div_spec, !to_Z_of_Z_small; trivial; try lia.
  split; [apply Z.div_pos; lia|].
  apply Z.le_lt_trans with a; [|lia]. apply Z.div_le_upper_bound; nia.
Qed.

Lemma wB_value : wB = 9223372036854775808.
Proof. reflexivity. Qed.

Lemma ltb_of_Z_false (z bound : Z) :
  0 <= bound <= z -> z < wB -> (of_Z z <? of_Z bound)%uint63 = false.
Proof.
  intros Hb Hz. apply not_true_is_false. rewrite Uint63.ltb_spec.
  rewrite !to_Z_of_Z_small; lia.
Qed.

Lemma Z2Num_nonneg (z : Z) : 0 <= z -> Z2Num z = of_uint63 (of_Z z).
Proof.
  intros Hz. unfold Z2Num. destruct (Z.ltb_spec z 0); [lia|reflexivity].
Qed.

(** The integer that [agrees] compares with. *)
Lemma rounded_of_Z (k h : Z) :
  0 <= k <= 10250000 -> 0 <= h <= 200 ->
  ((2 * (of_Z k * of_Z h) + 10000) / 20000 * 1000)%uint63
  = of_Z ((2 * (k * h) + 10000) / 20000 * 1000).
Proof.
  intros Hk Hh.
  rewrite of_Z_mul, of_Z_div, of_Z_add, !of_Z_mul; try reflexivity;
    rewrite wB_value; nia.
Qed.

Lemma agrees_sound (x : float) (k h : Z) :
  0 <= k <= 10250000 -> 0 <= h <= 200 ->
  agrees x (of_Z k * of_Z h)%uint63 = true ->
  (Math_round (x / 1000) * 1000)%float = Z2Num ((2 * (k * h) + 10000) / 20000 * 1000).
Proof.
  intros Hk Hh Hagrees. unfold agrees in Hagrees.
  apply FloatAxioms.Leibniz.eqb_spec in Hagrees. rewrite Hagrees.
  rewrite rounded_of_Z by assumption. symmetry. apply Z2Num_nonneg.
  apply Z.mul_nonneg_nonneg; [|lia]. apply Z.div_pos; nia.
Qed.

(** ** The engine's arithmetic is exact on valid profiles *)

Lemma settleExact_at (k : Z) :
  20000 <= k <= 10250000 -> settleExact (of_Z k) = true.
Proof.
  intros Hk. apply (onAmounts_sound settleExact settleExact_checked). lia.
Qed.

Lemma baseExact_at (i : Z) :
  20000 <= i <= 10000000 -> baseExact (of_Z i) = true.
Proof.
  intros Hi. apply (onAmounts_sound baseExact baseExact_checked). lia.
Qed.

Lemma guard_passed (k lo hi : Z) (body : bool) :
  0 <= lo <= k -> k <= hi < wB ->
  (if (of_Z k <? of_Z lo)%uint63 then true
   else if (of_Z hi <? of_Z k)%uint63 then true else body) = true ->
  body = true.
Proof.
  intros Hlo Hhi. rewrite !ltb_of_Z_false by lia. trivial.
Qed.

(** The rounded coverage is exact for every age bracket and risk tolerance. *)
Lemma settle_exact (a : Z) (r : RiskTolerance) (k : Z) :
  20000 <= k <= 10250000 ->
  settle (ageFactor a) (riskFactor r) (Z2Num (10 * k))
  = Z2Num (exactZ (ageTenths a) (riskTenths r) k).
Proof.
  intros Hk. pose proof (settleExact_at k Hk) as Hall.
  unfold settleExact in Hall.
  apply (guard_passed k 20000 10250000) in Hall; [|lia|rewrite wB_value; lia].
  cbv zeta in Hall.
  assert (Hc : of_uint63 (of_Z k * 10)%uint63 = Z2Num (10 * k)).
  { rewrite Z2Num_nonneg by lia. rewrite (Z.mul_comm 10 k), of_Z_mul. reflexivity. }
  rewrite Hc in Hall.
  repeat (apply andb_prop in Hall as [Hall ?]).
  assert (Hk' : 0 <= k <= 10250000) by lia.
  unfold settle, exactZ, ageFactor, ageTenths.
  destruct (a <? 30), (50 <? a), r; cbn [times riskFactor riskTenths];
    match goal with
    | H : agrees ?x (of_Z k * ?h)%uint63 = true |- (Math_round (?x / 1000) * 1000)%float = Z2Num ((2 * (k * ?m) + 10000) / 20000 * 1000) =>
        apply (agrees_sound x k m Hk'); [lia|exact H]
    end.
Qed.

Lemma sums_sound (c y : float) (n m : Z) :
  0 <= n -> 0 <= m ->
  sums c (of_Z n) y (of_Z m) = true -> (c + y)%float = Z2Num (n + m).
Proof.
  intros Hn Hm Hsums. unfold sums in Hsums.
  apply FloatAxioms.Leibniz.eqb_spec in Hsums.
  rewrite Hsums, <- of_Z_add. symmetry. apply Z2Num_nonneg. lia.
Qed.

Lemma small_range_cases (d : Z) :
  0 <= d <= 10 ->
  d = 0 \/ d = 1 \/ d = 2 \/ d = 3 \/ d = 4 \/ d = 5 \/ d = 6 \/ d = 7 \/ d = 8
  \/ d = 9 \/ d = 10.
Proof. lia. Qed.

(** The coverage that the dependents step leaves is the Number of
    [10 * (income + 25000 * dependents)]. *)
Lemma base_exact (a i d : Z) (r : string) :
  20000 <= i <= 10000000 -> 0 <= d <= 10 ->
  l_coverage (adjustForDependents (profileOf a i d r) (initialLocals (profileOf a i d r)))
  = Z2Num (10 * (i + 25000 * d)).
Proof.
  intros Hi Hd. pose proof (baseExact_at i Hi) as Hall.
  unfold baseExact in Hall.
  apply (guard_passed i 20000 10000000) in Hall; [|lia|rewrite wB_value; lia].
  cbv zeta in Hall.
  repeat (apply andb_prop in Hall as [Hall ?]).
  apply FloatAxioms.Leibniz.eqb_spec in Hall.
  unfold adjustForDependents, initialLocals, profileOf.
  cbn [dependents income l_coverage l_type l_duration l_explanation].
  rewrite (Z2Num_nonneg i) by lia.
  assert (Hn : (of_Z i * 10)%uint63 = of_Z (i * 10)) by (rewrite of_Z_mul; reflexivity).
  rewrite Hn in *.
  destruct (small_range_cases d Hd) as [->|Hcases].
  - change (0 <? Z2Num 0)%float with false. cbn [l_coverage].
    rewrite Hall. rewrite Z2Num_nonneg by lia. f_equal. f_equal. lia.
  - repeat (destruct Hcases as [->|Hcases]); [..|subst d];
      match goal with
      | |- context [(0 <? Z2Num ?dv)%float] =>
          let t := eval vm_compute in (0 <? Z2Num dv)%float in
          change (0 <? Z2Num dv)%float with t;
          let y := eval vm_compute in (Z2Num dv * 250000)%float in
          change (Z2Num dv * 250000)%float with y;
          cbn [l_coverage];
          match goal with
          | H : sums _ _ y _ = true |- _ =>
              rewrite (sums_sound _ y (i * 10) (250000 * dv)) by (first [lia | exact H]);
              f_equal; lia
          end
      end.
Qed.

Lemma allBetween_ages : allBetween 18 63 ageCompared = true.
Proof. vm_compute. reflexivity. Qed.

Lemma age_compared (a : Z) :
  18 <= a <= 80 ->
  (Z2Num a <? 30)%float = (a <? 30) /\ (50 <? Z2Num a)%float = (50 <? a).
Proof.
  intros Ha. pose proof (allBetween_sound 18 63 ageCompared allBetween_ages a) as Hc.
  unfold ageCompared in Hc. apply andb_prop in Hc as [H30 H50]; [|lia].
  split; apply eqb_prop; assumption.
Qed.

(** The age step, the [switch] and the rounding, as one function of the
    coverage that the dependents step left. *)
Lemma coverage_settles (a i d : Z) (r : RiskTolerance) (l : Locals) :
  18 <= a <= 80 ->
  let p := profileOf a i d (riskName r) in
  l_coverage (roundCoverage (adjustForRisk p (adjustForAge p l)))
  = settle (ageFactor a) (riskFactor r) (l_coverage l).
Proof.
  intros Ha p. destruct (age_compared a Ha) as [H30 H50].
  unfold roundCoverage, adjustForRisk, adjustForAge, settle, ageFactor, p, profileOf.
  cbn [age riskTolerance l_coverage]. rewrite H30, H50.
  destruct (a <? 30), (50 <? a), r; reflexivity.
Qed.

(** From the Numbers of a valid profile the engine computes the Number of
    the exactly rounded amount. *)
Lemma coverage_exact (a i d : Z) (r : RiskTolerance) :
  validProfile a i d ->
  coverageAmount (profileOf a i d (riskName r)) = Z2Num (spec_coverage a i d r).
Proof.
  intros (Ha & Hi & Hd). unfold coverageAmount, finalLocals.
  rewrite coverage_settles by assumption.
  rewrite base_exact by assumption.
  rewrite settle_exact by lia.
  now rewrite spec_coverage_closed.
Qed.

(** ** Coverage amounts as integers *)

Lemma spec_coverage_thousands (a i d : Z) (r : RiskTolerance) :
  validProfile a i d ->
  exists n, 0 <= n < 163840 /\ spec_coverage a i d r = n * 1000.
Proof.
  intros (Ha & Hi & Hd). rewrite spec_coverage_closed. unfold exactZ.
  exists ((2 * ((i + 25000 * d) * (ageTenths a * riskTenths r)) + 10000) / 20000).
  split; [|reflexivity].
  assert (Hm : 0 <= ageTenths a * riskTenths r <= 156).
  { unfold ageTenths. destruct (a <? 30), (50 <? a), r; cbn; lia. }
  split.
  - apply Z.div_pos; nia.
  - apply Z.div_lt_upper_bound; nia.
Qed.

Lemma thousand_value (n : Z) :
  0 <= n < 163840 ->
  Num2Z (Z2Num (n * 1000)) = Some (n * 1000)
  /\ toLocaleString (Z2Num (n * 1000)) = grouped (n * 1000).
Proof.
  intros Hn.
  pose proof (onThousands_sound thousandExact thousandExact_checked n Hn) as Hc.
  rewrite Z2Num_nonneg by lia. rewrite of_Z_mul.
  change (of_Z 1000) with 1000%uint63.
  assert (Hv : to_Z (of_Z n * 1000)%uint63 = n * 1000).
  { rewrite <- (to_Z_of_Z_small (n * 1000)) by (rewrite wB_value; lia).
    now rewrite of_Z_mul. }
  unfold thousandExact in Hc. cbv zeta in Hc. unfold toLocaleString.
  destruct (classify (of_uint63 (of_Z n * 1000)%uint63)); try discriminate Hc;
    apply andb_prop in Hc as [Hsign Hnum];
    apply negb_true_iff in Hsign; rewrite Hsign;
    destruct (Num2Z (of_uint63 (of_Z n * 1000)%uint63)) as [z|]; try discriminate Hnum;
    apply Z.eqb_eq in Hnum; rewrite Hnum, Hv;
    (split; [reflexivity|]); rewrite Z.abs_eq by lia; reflexivity.
Qed.

(** ** The validation middleware *)

Lemma body4_props (a i d r : JsValue) :
  prop (body4 a i d r) "age" = a /\ prop (body4 a i d r) "income" = i
  /\ prop (body4 a i d r) "dependents" = d
  /\ prop (body4 a i d r) "riskTolerance" = r.
Proof. repeat split; vm_compute; reflexivity. Qed.

(** The middleware on a body of exactly the four fields. *)
Lemma validate_body4 (a i d r : JsValue) :
  validateRecommendationInput (body4 a i d r) =
  if negb (truthy a) || negb (truthy i) || negb (truthy d) || negb (truthy r)
  then Respond missingFieldsResponse
  else if notIntegerBetween a 18 80 then Respond ageResponse
  else if notIntegerBetween i 20000 10000000 then Respond incomeResponse
  else if notIntegerBetween d 0 10 then Respond dependentsResponse
  else if negb (includesRisk r) then Respond riskResponse
  else Next.
Proof.
  unfold validateRecommendationInput.
  destruct (body4_props a i d r) as (-> & -> & -> & ->). reflexivity.
Qed.

Lemma numberAccepted_spec (x lo hi : float) :
  numberAccepted x lo hi = true ->
  truthy (JsNumber x) = true /\ notIntegerBetween (JsNumber x) lo hi = false.
Proof.
  unfold numberAccepted. intros H. apply andb_prop in H as [Ht Hn].
  split; [assumption|]. now apply negb_true_iff in Hn.
Qed.

Lemma income_accepted (i : Z) :
  20000 <= i <= 10000000 -> numberAccepted (Z2Num i) 20000 10000000 = true.
Proof.
  intros Hi.
  pose proof (onAmounts_sound incomeAccepted incomeAccepted_checked i) as Hc.
  unfold incomeAccepted in Hc.
  rewrite Z2Num_nonneg by lia.
  apply (guard_passed i 20000 10000000); [lia|rewrite wB_value; lia|].
  apply Hc. lia.
Qed.

Lemma allBetween_ages_accepted : allBetween 18 63 ageAccepted = true.
Proof. vm_compute. reflexivity. Qed.

Lemma age_accepted (a : Z) :
  18 <= a <= 80 -> numberAccepted (Z2Num a) 18 80 = true.
Proof.
  intros Ha. apply (allBetween_sound 18 63 ageAccepted allBetween_ages_accepted). lia.
Qed.

Lemma allBetween_dependents_accepted : allBetween 1 10 dependentsAccepted = true.
Proof. vm_compute. reflexivity. Qed.

Lemma dependents_accepted (d : Z) :
  1 <= d <= 10 -> numberAccepted (Z2Num d) 0 10 = true.
Proof.
  intros Hd.
  apply (allBetween_sound 1 10 dependentsAccepted allBetween_dependents_accepted). lia.
Qed.

(** Every valid profile with at least one dependent passes the middleware. *)
Lemma valid_body_accepted (a i d : Z) (r : RiskTolerance) :
  validProfile a i d -> 1 <= d ->
  validateRecommendationInput (bodyOf a i d (riskName r)) = Next.
Proof.
  intros (Ha & Hi & Hd) Hd1. unfold bodyOf. rewrite validate_body4.
  destruct (numberAccepted_spec _ _ _ (age_accepted a Ha)) as [-> ->].
  destruct (numberAccepted_spec _ _ _ (income_accepted i Hi)) as [-> ->].
  destruct (numberAccepted_spec _ _ _ (dependents_accepted d ltac:(lia))) as [-> ->].
  destruct r; reflexivity.
Qed.

(** A body that lacks one of the four fields gets the one response that
    lists all four. *)
Lemma absent_field_rejected (body : gmap string JsValue) (field : string) :
  In field ["age"; "income"; "dependents"; "riskTolerance"]%string ->
  body !! field = None ->
  validateRecommendationInput body = Respond missingFieldsResponse.
Proof.
  intros Hin Habsent. unfold validateRecommendationInput.
  assert (Hfalsy : truthy (prop body field) = false).
  { unfold prop. rewrite Habsent. reflexivity. }
  cbn [In] in Hin.
  destruct Hin as [<-|[<-|[<-|[<-|[]]]]]; rewrite Hfalsy; cbn [negb];
    rewrite ?orb_true_r; reflexivity.
Qed.

Lemma rejection_is_listed (body : gmap string JsValue) (res : Response) :
  validateRecommendationInput body = Respond res -> In res rejections.
Proof.
  unfold validateRecommendationInput, rejections.
  repeat match goal with
         | |- context [if ?c then _ else _] => destruct c
         end; intros H; inversion H; subst; cbn [In]; tauto.
Qed.

Lemma rejections_distinct : List.NoDup rejections.
Proof.
  unfold rejections.
  repeat (apply List.NoDup_cons; [cbn [In]; intros Hin; intuition discriminate|]).
  apply List.NoDup_nil.
Qed.

(** What the middleware lets through is a profile of Numbers and a string. *)
Lemma accepted_body_is_profile (body : gmap string JsValue) :
  validateRecommendationInput body = Next ->
  exists p, profileOfBody body = Some p.
Proof.
  unfold validateRecommendationInput, profileOfBody.
  destruct (negb (truthy (prop body "age")) || _ || _ || _); [discriminate|].
  destruct (notIntegerBetween (prop body "age") 18 80) eqn:Ha; [discriminate|].
  destruct (notIntegerBetween (prop body "income") 20000 10000000) eqn:Hi;
    [discriminate|].
  destruct (notIntegerBetween (prop body "dependents") 0 10) eqn:Hd; [discriminate|].
  destruct (negb (includesRisk (prop body "riskTolerance"))) eqn:Hr; [discriminate|].
  intros _.
  destruct (prop body "age"); try discriminate Ha.
  destruct (prop body "income"); try discriminate Hi.
  destruct (prop body "dependents"); try discriminate Hd.
  destruct (prop body "riskTolerance"); try discriminate Hr.
  eexists. reflexivity.
Qed.

(** ** Integral Numbers and their order

    The comparisons of the middleware are binary64 comparisons.  On Numbers
    whose value is an integer they are the comparisons of these integers;
    this is proved from the format itself, for all Numbers at once. *)

Lemma digits2_bounds (m : positive) :
  2 ^ (Z.pos (digits2_pos m) - 1) <= Z.pos m < 2 ^ Z.pos (digits2_pos m).
Proof.
  induction m as [p IH|p IH|]; cbn [digits2_pos].
  - rewrite Pos2Z.inj_succ.
    replace (Z.succ (Z.pos (digits2_pos p)) - 1)
      with (Z.succ (Z.pos (digits2_pos p) - 1)) by lia.
    rewrite !Z.pow_succ_r by lia. lia.
  - rewrite Pos2Z.inj_succ.
    replace (Z.succ (Z.pos (digits2_pos p)) - 1)
      with (Z.succ (Z.pos (digits2_pos p) - 1)) by lia.
    rewrite !Z.pow_succ_r by lia. lia.
  - cbn. lia.
Qed.

(** A finite non-zero Number is stored with its canonical exponent. *)
Lemma finite_canonical (x : float) (s : bool) (m : positive) (e : Z) :
  Prim2SF x = S754_finite s m e ->
  Z.max (Z.pos (digits2_pos m) + e - 53) (-1074) = e.
Proof.
  intros HF. pose proof (Prim2SF_valid x) as Hv. rewrite HF in Hv.
  unfold valid_binary, bounded, canonical_mantissa, fexp, SpecFloat.emin,
    FloatOps.prec, FloatOps.emax in Hv.
  apply andb_prop in Hv. destruct Hv as [Hc _].
  apply Z.eqb_eq in Hc. lia.
Qed.

(** What [frshiftexp] and [normfr_mantissa] give on a finite non-zero Number
    with a full significand. *)
Lemma frshiftexp_normal (x f : float) (se : int) (s : bool) (m : positive)
    (e : Z) :
  Prim2SF x = S754_finite s m e ->
  frshiftexp x = (f, se) ->
  Z.pos (digits2_pos m) = 53 ->
  to_Z (normfr_mantissa f) = Z.pos m /\ to_Z se = e + 2154.
Proof.
  intros HF Hfr Hd.
  pose proof (frshiftexp_spec x) as Hs. rewrite Hfr, HF in Hs.
  unfold SFfrexp, FloatOps.prec, FloatOps.shift in Hs. rewrite Hd in Hs.
  change (53 <=? 53) with true in Hs. cbv iota in Hs.
  injection Hs as Hf He.
  rewrite normfr_mantissa_spec, Hf. unfold SFnormfr_mantissa, FloatOps.prec.
  rewrite Z.eqb_refl. split; [reflexivity|lia].
Qed.

(** A subnormal Number has a shifted exponent below that of one half. *)
Lemma frshiftexp_subnormal (x f : float) (se : int) (s : bool) (m : positive)
    (e : Z) :
  Prim2SF x = S754_finite s m e ->
  frshiftexp x = (f, se) ->
  Z.pos (digits2_pos m) <> 53 ->
  to_Z se < 2101.
Proof.
  intros HF Hfr Hd.
  pose proof (finite_canonical x s m e HF) as Hc.
  pose proof (frshiftexp_spec x) as Hs. rewrite Hfr, HF in Hs.
  unfold SFfrexp, FloatOps.prec, FloatOps.shift in Hs.
  destruct (53 <=? Z.pos (digits2_pos m)) eqn:Hle.
  - apply Z.leb_le in Hle. lia.
  - apply Z.leb_gt in Hle. injection Hs as _ He. lia.
Qed.

Lemma leb_to_Z (a b : int) : (a <=? b)%uint63 = (to_Z a <=? to_Z b).
Proof. apply eq_true_iff_eq. rewrite Uint63.leb_spec, Z.leb_le. reflexivity. Qed.

Lemma ltb_to_Z (a b : int) : (a <? b)%uint63 = (to_Z a <? to_Z b).
Proof. apply eq_true_iff_eq. rewrite Uint63.ltb_spec, Z.ltb_lt. reflexivity. Qed.

Lemma ltb_zero (x : float) (s : bool) (m : positive) (e : Z) :
  Prim2SF x = S754_finite s m e -> (x <? 0)%float = s.
Proof.
  intros HF. rewrite FloatAxioms.ltb_spec, HF.
  change (Prim2SF 0) with (S754_zero false).
  destruct s; reflexivity.
Qed.

(** [Num2Z] reads the integer off the stored significand and exponent. *)
Lemma Num2Z_integerValue (x : float) (z : Z) :
  Num2Z x = Some z -> integerValue (Prim2SF x) z.
Proof.
  unfold Num2Z. rewrite classify_spec. unfold SF64classify, SFclassify, FloatOps.prec.
  destruct (Prim2SF x) as [s|s| |s m e] eqn:HF.
  - destruct s; intros [= <-]; reflexivity.
  - destruct s; discriminate.
  - discriminate.
  - assert (Hgen :
      (let (f, se) := frshiftexp x in
       let m0 := normfr_mantissa f in
       let sign := if (x <? 0)%float then -1 else 1 in
       if (2154 <=? se)%uint63
       then Some (sign * (to_Z m0 * 2 ^ (to_Z se - 2154)))
       else if (se <? 2101)%uint63 then None
       else let s0 := (2154 - se)%uint63 in
            if ((m0 >> s0) << s0 =? m0)%uint63 then Some (sign * to_Z (m0 >> s0))
            else None) = Some z ->
      integerValue (S754_finite s m e) z).
    { destruct (frshiftexp x) as [f se] eqn:Hfr. cbv zeta.
      rewrite (ltb_zero x s m e HF).
      replace (if s then -1 else 1) with (signZ s) by reflexivity.
      rewrite leb_to_Z, ltb_to_Z.
      change (to_Z 2154) with 2154. change (to_Z 2101) with 2101.
      destruct (Z.eq_dec (Z.pos (digits2_pos m)) 53) as [Hd|Hd].
      - destruct (frshiftexp_normal x f se s m e HF Hfr Hd) as [Hm Hse].
        cbn [integerValue]. intros Hz. split; [assumption|]. revert Hz.
        destruct (2154 <=? to_Z se) eqn:Hbig.
        + apply Z.leb_le in Hbig. intros [= <-].
          replace (0 <=? e) with true by (symmetry; apply Z.leb_le; lia).
          rewrite Hm. replace (to_Z se - 2154) with e by lia. reflexivity.
        + apply Z.leb_gt in Hbig.
          destruct (to_Z se <? 2101) eqn:Hsmall; [discriminate|].
          apply Z.ltb_ge in Hsmall.
          assert (Hs0 : to_Z (2154 - se) = - e).
          { rewrite Uint63.sub_spec. change (to_Z 2154) with 2154.
            rewrite Z.mod_small; [lia|]. rewrite wB_value. lia. }
          destruct ((normfr_mantissa f >> (2154 - se)) << (2154 - se)
                    =? normfr_mantissa f)%uint63 eqn:Heq; [|discriminate].
          intros [= <-].
          apply Uint63.eqb_spec in Heq. apply (f_equal to_Z) in Heq.
          rewrite Uint63.lsl_spec, Uint63.lsr_spec, Hs0, Hm in Heq.
          rewrite Uint63.lsr_spec, Hs0, Hm.
          replace (0 <=? e) with false by (symmetry; apply Z.leb_gt; lia).
          pose proof (digits2_bounds m) as Hb. rewrite Hd in Hb.
          assert (Hpow : 0 < 2 ^ (- e)) by (apply Z.pow_pos_nonneg; lia).
          pose proof (Z.mul_div_le (Z.pos m) (2 ^ (- e)) Hpow) as Hle.
          assert (Hnn : 0 <= Z.pos m / 2 ^ (- e)) by (apply Z.div_pos; lia).
          rewrite Z.mod_small in Heq.
          * rewrite <- Z.mul_assoc, Heq. reflexivity.
          * rewrite wB_value. split; [nia|].
            change (2 ^ 53) with 9007199254740992 in Hb. nia.
      - pose proof (frshiftexp_subnormal x f se s m e HF Hfr Hd) as Hlt.
        replace (2154 <=? to_Z se) with false by (symmetry; apply Z.leb_gt; lia).
        replace (to_Z se <? 2101) with true by (symmetry; apply Z.ltb_lt; lia).
        discriminate. }
    destruct s; destruct (Z.pos (digits2_pos m) =? 53); exact Hgen.
Qed.

Lemma integerValue_finite (s : bool) (m : positive) (e z : Z) :
  integerValue (S754_finite s m e) z ->
  2 ^ 52 <= Z.pos m < 2 ^ 53 /\ scaled m e (signZ s * z).
Proof.
  intros [Hd Hz]. split.
  - pose proof (digits2_bounds m) as Hb. rewrite Hd in Hb. exact Hb.
  - unfold scaled. destruct (0 <=? e); destruct s; cbn [signZ] in *; lia.
Qed.

(** Both sides of [scaled] brought to a common power of two. *)
Lemma scaled_up (m : positive) (e z k : Z) :
  scaled m e z -> 0 <= k -> 0 <= k + e -> z * 2 ^ k = Z.pos m * 2 ^ (k + e).
Proof.
  unfold scaled. intros Hz Hk Hke. destruct (0 <=? e) eqn:He.
  - apply Z.leb_le in He. rewrite Z.pow_add_r by lia. subst z. ring.
  - apply Z.leb_gt in He.
    replace k with (- e + (k + e)) at 1 by lia.
    rewrite Z.pow_add_r by lia. rewrite Z.mul_assoc, Hz. reflexivity.
Qed.

Lemma scaled_pos (m : positive) (e z : Z) : scaled m e z -> 0 < z.
Proof.
  intros Hz.
  pose proof (scaled_up m e z (Z.max 0 (- e)) Hz ltac:(lia) ltac:(lia)) as H.
  assert (0 < 2 ^ Z.max 0 (- e)) by (apply Z.pow_pos_nonneg; lia).
  assert (0 < 2 ^ (Z.max 0 (- e) + e)) by (apply Z.pow_pos_nonneg; lia).
  nia.
Qed.

(** Full significands are ordered by exponent first, then by significand. *)
Lemma scaled_compare (m1 m2 : positive) (e1 e2 z1 z2 : Z) :
  2 ^ 52 <= Z.pos m1 < 2 ^ 53 -> 2 ^ 52 <= Z.pos m2 < 2 ^ 53 ->
  scaled m1 e1 z1 -> scaled m2 e2 z2 ->
  (z1 ?= z2)
  = match e1 ?= e2 with
    | Lt => Lt
    | Gt => Gt
    | Eq => (m1 ?= m2)%positive
    end.
Proof.
  intros Hm1 Hm2 Hz1 Hz2.
  set (k := Z.max 0 (Z.max (- e1) (- e2))).
  pose proof (scaled_up m1 e1 z1 k Hz1 ltac:(lia) ltac:(lia)) as H1.
  pose proof (scaled_up m2 e2 z2 k Hz2 ltac:(lia) ltac:(lia)) as H2.
  assert (Hk : 0 < 2 ^ k) by (apply Z.pow_pos_nonneg; lia).
  change (2 ^ 52) with 4503599627370496 in *.
  change (2 ^ 53) with 9007199254740992 in *.
  destruct (Z.compare_spec e1 e2) as [He|He|He].
  - subst e2. rewrite Pos2Z.inj_compare.
    assert (Hp : 0 < 2 ^ (k + e1)) by (apply Z.pow_pos_nonneg; lia).
    destruct (Z.compare_spec (Z.pos m1) (Z.pos m2)) as [Hm|Hm|Hm].
    + apply Z.compare_eq_iff. nia.
    + apply Z.compare_lt_iff. nia.
    + apply Z.compare_gt_iff. nia.
  - apply Z.compare_lt_iff.
    assert (Hp : 0 < 2 ^ (k + e1)) by (apply Z.pow_pos_nonneg; lia).
    assert (Hs : 2 ^ (k + e2) = 2 ^ (k + e1) * 2 ^ (e2 - e1)).
    { rewrite <- Z.pow_add_r by lia. f_equal. lia. }
    assert (Hd : 2 <= 2 ^ (e2 - e1)).
    { change 2 with (2 ^ 1) at 1. apply Z.pow_le_mono_r; lia. }
    rewrite Hs in H2. nia.
  - apply Z.compare_gt_iff.
    assert (Hp : 0 < 2 ^ (k + e2)) by (apply Z.pow_pos_nonneg; lia).
    assert (Hs : 2 ^ (k + e1) = 2 ^ (k + e2) * 2 ^ (e1 - e2)).
    { rewrite <- Z.pow_add_r by lia. f_equal. lia. }
    assert (Hd : 2 <= 2 ^ (e1 - e2)).
    { change 2 with (2 ^ 1) at 1. apply Z.pow_le_mono_r; lia. }
    rewrite Hs in H1. nia.
Qed.

Lemma SFltb_integers (f g : spec_float) (z w : Z) :
  integerValue f z -> integerValue g w -> SFltb f g = (z <? w).
Proof.
  destruct f as [s1|s1| |s1 m1 e1]; destruct g as [s2|s2| |s2 m2 e2];
    cbn [integerValue]; try tauto.
  - intros -> ->. reflexivity.
  - intros -> Hw. apply integerValue_finite in Hw. destruct Hw as [_ Hw].
    apply scaled_pos in Hw. unfold SFltb, SFcompare.
    destruct s2; cbn [signZ] in Hw; symmetry;
      [apply Z.ltb_ge|apply Z.ltb_lt]; lia.
  - intros Hz ->. apply integerValue_finite in Hz. destruct Hz as [_ Hz].
    apply scaled_pos in Hz. unfold SFltb, SFcompare.
    destruct s1; cbn [signZ] in Hz; symmetry;
      [apply Z.ltb_lt|apply Z.ltb_ge]; lia.
  - intros Hz Hw.
    apply integerValue_finite in Hz, Hw.
    destruct Hz as [Hm1 Hz], Hw as [Hm2 Hw].
    pose proof (scaled_pos _ _ _ Hz) as Hzp.
    pose proof (scaled_pos _ _ _ Hw) as Hwp.
    pose proof (scaled_compare _ _ _ _ _ _ Hm1 Hm2 Hz Hw) as Hc.
    unfold SFltb, SFcompare. fold (Pos.compare m1 m2).
    destruct s1, s2; cbn [signZ] in *.
    + replace (-1 * z ?= -1 * w) with (w ?= z) in Hc
        by (rewrite <- Z.compare_opp; f_equal; lia).
      unfold Z.ltb. rewrite (Z.compare_antisym w z), Hc.
      destruct (e1 ?= e2); try reflexivity.
    + symmetry. apply Z.ltb_lt. lia.
    + symmetry. apply Z.ltb_ge. lia.
    + replace (1 * z ?= 1 * w) with (z ?= w) in Hc by (f_equal; lia).
      unfold Z.ltb. rewrite Hc. destruct (e1 ?= e2); reflexivity.
Qed.

(** The comparison of two integral Numbers is the comparison of their
    values. *)
Lemma ltb_integers (x y : float) (z w : Z) :
  Num2Z x = Some z -> Num2Z y = Some w -> (x <? y)%float = (z <? w).
Proof.
  intros Hx Hy. rewrite FloatAxioms.ltb_spec.
  apply SFltb_integers; apply Num2Z_integerValue; assumption.
Qed.

(** ** The middleware's checks against the specification's invariants *)

(** The check of a number field fails exactly on the raw values that are not
    an integer Number within the bounds. *)
Lemma notIntegerBetween_within (v : JsValue) (lo hi : float) (zlo zhi : Z) :
  Num2Z lo = Some zlo -> Num2Z hi = Some zhi ->
  notIntegerBetween v lo hi = negb (integerWithin zlo zhi v).
Proof.
  intros Hlo Hhi. destruct v as [| |b|x|s|]; try reflexivity.
  cbn [notIntegerBetween integerWithin]. unfold isInteger.
  destruct (Num2Z x) as [z|] eqn:Hx; [|reflexivity].
  rewrite (ltb_integers x lo z zlo Hx Hlo), (ltb_integers hi x zhi z Hhi Hx).
  cbn [negb orb]. rewrite negb_andb, !Z.leb_antisym, !negb_involutive.
  reflexivity.
Qed.

Lemma includesRisk_listed (v : JsValue) : includesRisk v = riskListed v.
Proof.
  destruct v as [| |b|x|s|]; try reflexivity.
  unfold riskListed. cbn [includesRisk riskOf existsb].
  destruct (String.eqb s "Low"), (String.eqb s "Medium"), (String.eqb s "High");
    reflexivity.
Qed.

(** With the four fields truthy, the first field in the order age, income,
    dependents, riskTolerance that breaks its invariant decides the
    response. *)
Lemma validate_in_order (body : gmap string JsValue) :
  truthy (prop body "age") = true ->
  truthy (prop body "income") = true ->
  truthy (prop body "dependents") = true ->
  truthy (prop body "riskTolerance") = true ->
  validateRecommendationInput body
  = if negb (integerWithin 18 80 (prop body "age")) then Respond ageResponse
    else if negb (integerWithin 20000 10000000 (prop body "income"))
    then Respond incomeResponse
    else if negb (integerWithin 0 10 (prop body "dependents"))
    then Respond dependentsResponse
    else if negb (riskListed (prop body "riskTolerance")) then Respond riskResponse
    else Next.
Proof.
  intros Ha Hi Hd Hr. unfold validateRecommendationInput.
  rewrite Ha, Hi, Hd, Hr. cbn [negb orb].
  rewrite (notIntegerBetween_within _ 18 80 18 80) by reflexivity.
  rewrite (notIntegerBetween_within _ 20000 10000000 20000 10000000) by reflexivity.
  rewrite (notIntegerBetween_within _ 0 10 0 10) by reflexivity.
  rewrite includesRisk_listed. reflexivity.
Qed.

(** What the middleware lets through satisfies the section 3 invariants. *)
Lemma accepted_is_valid (body : gmap string JsValue) :
  validateRecommendationInput body = Next -> validRaw body = true.
Proof.
  unfold validateRecommendationInput, validRaw.
  rewrite (notIntegerBetween_within _ 18 80 18 80) by reflexivity.
  rewrite (notIntegerBetween_within _ 20000 10000000 20000 10000000) by reflexivity.
  rewrite (notIntegerBetween_within _ 0 10 0 10) by reflexivity.
  rewrite includesRisk_listed.
  destruct (negb (truthy (prop body "age")) || negb (truthy (prop body "income"))
            || negb (truthy (prop body "dependents"))
            || negb (truthy (prop body "riskTolerance"))); [discriminate|].
  destruct (integerWithin 18 80 (prop body "age")); [|discriminate].
  destruct (integerWithin 20000 10000000 (prop body "income")); [|discriminate].
  destruct (integerWithin 0 10 (prop body "dependents")); [|discriminate].
  destruct (riskListed (prop body "riskTolerance")); [reflexivity|discriminate].
Qed.

(** ** The route handler *)

Lemma handler_responds (env : Env) (p : Profile) (log : list LogLine) :
  fst (recommendationHandler env p log) = inr (successResponse p (now env)).
Proof.
  unfold recommendationHandler, tryCatch, bind, await, firstRowId, ret, throw,
    console_log, console_error.
  destruct (pool_query env _) as [e|[|id rows]]; reflexivity.
Qed.


(** A request that the middleware answers goes no further. *)
Lemma rejected_request_stops (env : Env) (body : gmap string JsValue)
    (res : Response) (log : list LogLine) :
  validateRecommendationInput body = Respond res ->
  postRecommendation env body log = (inr res, log) /\ status res = 400.
Proof.
  intros Hrejected. unfold postRecommendation. rewrite Hrejected.
  split; [reflexivity|].
  pose proof (rejection_is_listed body res Hrejected) as Hin.
  unfold rejections in Hin. cbn [In] in Hin.
  repeat (destruct Hin as [<-|Hin]; [reflexivity|]). destruct Hin.
Qed.

(** ** What the first three steps leave in the other locals *)

Lemma early_steps_keep (p : Profile) :
  let l := adjustForAge p (adjustForDependents p (initialLocals p)) in
  l_type l = "Term Life"%string /\ l_duration l = 20 /\ l_explanation l = ""%string.
Proof.
  unfold adjustForAge, adjustForDependents, initialLocals.
  destruct (age p <? 30)%float, (50 <? age p)%float, (0 <? dependents p)%float;
    repeat split.
Qed.

Lemma spec_coverage_monotone (a i d : Z) (r : RiskTolerance) :
  spec_coverage a i d r <= spec_coverage a i (d + 1) r.
Proof.
  rewrite !spec_coverage_closed. unfold exactZ.
  assert (Hm : 0 <= ageTenths a * riskTenths r).
  { unfold ageTenths. destruct (a <? 30), (50 <? a), r; cbn; lia. }
  apply Z.mul_le_mono_nonneg_r; [lia|].
  apply Z.div_le_mono; [lia|]. nia.
Qed.

Lemma coverage_value (a i d : Z) (r : RiskTolerance) :
  validProfile a i d ->
  Num2Z (coverageAmount (profileOf a i d (riskName r))) = Some (spec_coverage a i d r)
  /\ toLocaleString (coverageAmount (profileOf a i d (riskName r)))
     = grouped (spec_coverage a i d r).
Proof.
  intros Hvalid. rewrite coverage_exact by assumption.
  destruct (spec_coverage_thousands a i d r Hvalid) as (n & Hn & ->).
  now apply thousand_value.
Qed.

(** * The statements of the specification *)

(** C1 (the code departs from it).  A request whose four fields are present,
    of the right type and in range is to pass validation, also when
    [dependents] is 0.  The middleware tests presence with [!dependents], and
    the Number 0 is falsy: whatever the other three fields hold, a body with
    [dependents = 0] is answered 400 "Missing required fields" and never
    reaches the engine.  (With one to ten dependents every valid profile does
    pass: [valid_body_accepted].) *)
Theorem C1_zero_dependents_rejected (a i : Z) (r : string) :
  validateRecommendationInput (bodyOf a i 0 r) = Respond missingFieldsResponse.
Proof.
  unfold bodyOf. rewrite validate_body4.
  change (truthy (JsNumber (Z2Num 0))) with false.
  cbn [negb]. rewrite orb_true_r. reflexivity.
Qed.

(** C2.  The two end-to-end examples: age 30, income 75000, 2 dependents,
    Medium gives Term Life, "$1,250,000", "20 years" and the balanced
    explanation; age 25, income 50000, no dependents, High gives Whole Life,
    "$780,000" and "30 years". *)
Theorem C2_end_to_end_examples :
  getRecommendation (profileOf 30 75000 2 "Medium")
  = {| type := "Term Life";
       coverage := "$1,250,000";
       duration := "20 years";
       explanation := "Balanced profile: standard coverage and term." |}
  /\ type (getRecommendation (profileOf 25 50000 0 "High")) = "Whole Life"%string
  /\ coverage (getRecommendation (profileOf 25 50000 0 "High")) = "$780,000"%string
  /\ duration (getRecommendation (profileOf 25 50000 0 "High")) = "30 years"%string.
Proof. repeat split; vm_compute; reflexivity. Qed.

(** C3, as stated, fails: the error does not identify the offending field or
    the kind of check.  The README request without its [age] and the same
    request without its [income] get the very same response, which lists all
    four field names; and an [age] of the wrong type (the string "30") gets the
    same response as an [age] out of range (17). *)
Lemma C3_missing_field_not_identified :
  validateRecommendationInput (delete "age"%string readmeBody)
  = Respond missingFieldsResponse
  /\ validateRecommendationInput (delete "income"%string readmeBody)
     = Respond missingFieldsResponse
  /\ validateRecommendationInput (<["age"%string := JsString "30"]> readmeBody)
     = Respond ageResponse
  /\ validateRecommendationInput (<["age"%string := JsNumber 17]> readmeBody)
     = Respond ageResponse.
Proof. repeat split; vm_compute; reflexivity. Qed.

(** C3, amended.  Every raw input that breaks an invariant of section 3 is
    rejected, and validation fails fast with a single response out of five,
    pairwise distinct.  A body that lacks any of the four fields gets the
    "Missing required fields" response, which names all four.  When the four
    fields are present and truthy they are checked in the order age, income,
    dependents, riskTolerance, type and range together: the first field that
    is not an integer Number within its bounds (a value of another type, a
    fraction such as 30.5, an integer out of range), or the riskTolerance that
    is not one of the three strings, decides the response whatever the later
    fields hold; and the request passes when none fails. *)
Theorem C3_fail_fast_rejections :
  (forall body,
      validRaw body = false ->
      exists res,
        validateRecommendationInput body = Respond res /\ In res rejections)
  /\ (forall body res,
         validateRecommendationInput body = Respond res -> In res rejections)
  /\ List.NoDup rejections
  /\ (forall body field,
         In field ["age"; "income"; "dependents"; "riskTolerance"]%string ->
         body !! field = None ->
         validateRecommendationInput body = Respond missingFieldsResponse)
  /\ (forall body,
         truthy (prop body "age") = true ->
         truthy (prop body "income") = true ->
         truthy (prop body "dependents") = true ->
         truthy (prop body "riskTolerance") = true ->
         validateRecommendationInput body
         = if negb (integerWithin 18 80 (prop body "age"))
           then Respond ageResponse
           else if negb (integerWithin 20000 10000000 (prop body "income"))
           then Respond incomeResponse
           else if negb (integerWithin 0 10 (prop body "dependents"))
           then Respond dependentsResponse
           else if negb (riskListed (prop body "riskTolerance"))
           then Respond riskResponse
           else Next).
Proof.
  split; [|split; [exact rejection_is_listed|
           split; [exact rejections_distinct|
           split; [exact absent_field_rejected|exact validate_in_order]]]].
  intros body Hinvalid.
  destruct (validateRecommendationInput body) as [res|] eqn:Hverdict.
  - exists res. split; [reflexivity|]. exact (rejection_is_listed body res Hverdict).
  - rewrite (accepted_is_valid body Hverdict) in Hinvalid. discriminate.
Qed.

(** Witness of C3: the rejections the specification lists, one field of the
    README request changed at a time, and next to each out-of-range value a
    value of another type or a fraction in the same field. *)
Lemma C3_fail_fast_rejections_witness :
  validateRecommendationInput (delete "dependents"%string readmeBody)
  = Respond missingFieldsResponse
  /\ validateRecommendationInput (bodyOf 17 75000 2 "Medium") = Respond ageResponse
  /\ validateRecommendationInput (bodyOf 81 75000 2 "Medium") = Respond ageResponse
  /\ validateRecommendationInput (<["age"%string := JsString "30"]> readmeBody)
     = Respond ageResponse
  /\ validateRecommendationInput (<["age"%string := JsNumber 30.5]> readmeBody)
     = Respond ageResponse
  /\ validateRecommendationInput (bodyOf 30 19999 2 "Medium") = Respond incomeResponse
  /\ validateRecommendationInput (<["income"%string := JsObject]> readmeBody)
     = Respond incomeResponse
  /\ validateRecommendationInput (bodyOf 30 75000 11 "Medium")
     = Respond dependentsResponse
  /\ validateRecommendationInput (<["dependents"%string := JsNumber 1.5]> readmeBody)
     = Respond dependentsResponse
  /\ validateRecommendationInput (bodyOf 30 75000 2 "Unknown") = Respond riskResponse
  /\ validateRecommendationInput (<["riskTolerance"%string := JsNumber 3]> readmeBody)
     = Respond riskResponse
  /\ (exists res,
         validateRecommendationInput (<["income"%string := JsBool true]> readmeBody)
         = Respond res /\ In res rejections).
Proof.
  destruct C3_fail_fast_rejections as (Hinvalid & _ & _ & Hmissing & Horder).
  split; [apply (Hmissing _ "dependents"%string); [cbn; tauto|vm_compute; reflexivity]|].
  repeat (split; [rewrite Horder by reflexivity; reflexivity|]).
  apply Hinvalid. reflexivity.
Defined.


(** C5.  For every valid profile the coverage amount that the engine computes
    in binary64 arithmetic is the Number of the amount that steps 1 to 5 give
    over the rationals; its value is that integer, and the [coverage] field is
    "$" followed by that integer with thousands separators. *)
Theorem C5_coverage_is_exact (a i d : Z) (r : RiskTolerance) :
  validProfile a i d ->
  let p := profileOf a i d (riskName r) in
  coverageAmount p = Z2Num (spec_coverage a i d r)
  /\ Num2Z (coverageAmount p) = Some (spec_coverage a i d r)
  /\ coverage (getRecommendation p) = "$" +:+ grouped (spec_coverage a i d r).
Proof.
  intros Hvalid p.
  destruct (coverage_value a i d r Hvalid) as [Hvalue Hshown].
  split; [now apply coverage_exact|]. split; [exact Hvalue|].
  unfold getRecommendation. cbn [coverage]. fold (coverageAmount p).
  unfold p. now rewrite Hshown.
Qed.

Lemma C5_coverage_is_exact_witness :
  validProfile 25 50000 0
  /\ coverageAmount (profileOf 25 50000 0 "High") = Z2Num (spec_coverage 25 50000 0 High)
  /\ Num2Z (coverageAmount (profileOf 25 50000 0 "High"))
     = Some (spec_coverage 25 50000 0 High)
  /\ coverage (getRecommendation (profileOf 25 50000 0 "High"))
     = "$" +:+ grouped (spec_coverage 25 50000 0 High).
Proof.
  assert (Hvalid : validProfile 25 50000 0) by (unfold validProfile; lia).
  split; [exact Hvalid|]. exact (C5_coverage_is_exact 25 50000 0 High Hvalid).
Defined.



(** C7.  Whatever Numbers a profile holds, its risk tolerance alone fixes the
    policy fields: High gives Whole Life, "30 years" and the aggressive
    explanation, Low gives Term Life, "15 years" and the conservative one,
    Medium gives Term Life, "20 years" and the balanced one; and the risk
    multiplier (1.3, 0.8, none) is applied to the coverage that the
    dependents step and then the age step left, just before the rounding. *)
Theorem C7_risk_determines_policy (a i d : float) (r : RiskTolerance) :
  let p := mkProfile a i d (riskName r) in
  let c := l_coverage (adjustForAge p (adjustForDependents p (initialLocals p))) in
  getRecommendation p
  = match r with
    | Low =>
        {| type := "Term Life";
           coverage := "$" +:+ toLocaleString (Math_round (c * 0.8 / 1000) * 1000)%float;
           duration := "15 years";
           explanation := "Conservative profile: moderate coverage, shorter term." |}
    | Medium =>
        {| type := "Term Life";
           coverage := "$" +:+ toLocaleString (Math_round (c / 1000) * 1000)%float;
           duration := "20 years";
           explanation := "Balanced profile: standard coverage and term." |}
    | High =>
        {| type := "Whole Life";
           coverage := "$" +:+ toLocaleString (Math_round (c * 1.3 / 1000) * 1000)%float;
           duration := "30 years";
           explanation :=
             "Aggressive profile: higher coverage, longer term, whole life." |}
    end.
Proof.
  intros p c. destruct (early_steps_keep p) as (Htype & Hduration & Hexplanation).
  unfold getRecommendation, finalLocals, roundCoverage, adjustForRisk.
  fold c. destruct r; cbn -[toLocaleString Math_round adjustForAge];
    rewrite ?Htype; reflexivity.
Qed.

(** C8.  For every valid profile the coverage amount is an integer divisible
    by 1000. *)
Theorem C8_coverage_multiple_of_1000 (a i d : Z) (r : RiskTolerance) :
  validProfile a i d ->
  exists c,
    Num2Z (coverageAmount (profileOf a i d (riskName r))) = Some c
    /\ c mod 1000 = 0.
Proof.
  intros Hvalid. exists (spec_coverage a i d r).
  split; [apply (coverage_value a i d r Hvalid)|].
  destruct (spec_coverage_thousands a i d r Hvalid) as (n & _ & ->).
  apply Z.mod_mul. lia.
Qed.

Lemma C8_coverage_multiple_of_1000_witness :
  exists c,
    Num2Z (coverageAmount (profileOf 55 123456 3 "Low")) = Some c /\ c mod 1000 = 0.
Proof.
  apply (C8_coverage_multiple_of_1000 55 123456 3 Low). unfold validProfile. lia.
Defined.

(** C9.  For every valid profile with fewer than ten dependents, one more
    dependent, the rest unchanged, never gives a smaller coverage amount. *)
Theorem C9_dependents_monotone (a i d : Z) (r : RiskTolerance) :
  validProfile a i d -> d < 10 ->
  exists c c',
    Num2Z (coverageAmount (profileOf a i d (riskName r))) = Some c
    /\ Num2Z (coverageAmount (profileOf a i (d + 1) (riskName r))) = Some c'
    /\ c <= c'.
Proof.
  intros (Ha & Hi & Hd) Hless.
  exists (spec_coverage a i d r), (spec_coverage a i (d + 1) r).
  split; [apply coverage_value; unfold validProfile; lia|].
  split; [apply coverage_value; unfold validProfile; lia|].
  apply spec_coverage_monotone.
Qed.

Lemma C9_dependents_monotone_witness :
  exists c c',
    Num2Z (coverageAmount (profileOf 25 50000 0 "High")) = Some c
    /\ Num2Z (coverageAmount (profileOf 25 50000 (0 + 1) "High")) = Some c'
    /\ c <= c'.
Proof.
  apply (C9_dependents_monotone 25 50000 0 High); [unfold validProfile|]; lia.
Defined.

(** C10.  The engine is a total function of its profile, and for a risk
    tolerance that is none of Low, Medium, High no case of the [switch] is
    taken: the answer keeps the initial Term Life, 20 years and empty
    explanation, and its coverage is the rounded coverage of the dependents and
    age steps, with no risk multiplier. *)
Theorem C10_unknown_risk_falls_back (p : Profile) :
  riskTolerance p <> "Low"%string ->
  riskTolerance p <> "Medium"%string ->
  riskTolerance p <> "High"%string ->
  let c := l_coverage (adjustForAge p (adjustForDependents p (initialLocals p))) in
  getRecommendation p
  = {| type := "Term Life";
       coverage := "$" +:+ toLocaleString (Math_round (c / 1000) * 1000)%float;
       duration := "20 years";
       explanation := "" |}.
Proof.
  intros Hlow Hmedium Hhigh c.
  apply String.eqb_neq in Hlow, Hmedium, Hhigh.
  destruct (early_steps_keep p) as (Htype & Hduration & Hexplanation).
  unfold getRecommendation, finalLocals, roundCoverage, adjustForRisk.
  rewrite Hlow, Hmedium, Hhigh.
  cbn [l_type l_coverage l_duration l_explanation].
  rewrite Htype, Hduration, Hexplanation. reflexivity.
Qed.

Lemma C10_unknown_risk_falls_back_witness :
  getRecommendation (profileOf 25 50000 0 "Unknown")
  = {| type := "Term Life";
       coverage := "$600,000";
       duration := "20 years";
       explanation := "" |}.
Proof.
  rewrite (C10_unknown_risk_falls_back (profileOf 25 50000 0 "Unknown"));
    [vm_compute; reflexivity|discriminate..].
Defined.

(** A store that refuses the connection: the failure goes to the console and
    the caller still gets the recommendation. *)
Example refused_connection_is_logged :
  postRecommendation
    {| pool_query := fun _ => inl (QueryRejected "ECONNREFUSED"); now := "T" |}
    readmeBody []
  = (inr {| status := 200;
            payload :=
              SuccessJson
                {| type := "Term Life";
                   coverage := "$1,250,000";
                   duration := "20 years";
                   explanation := "Balanced profile: standard coverage and term." |}
                "T" |},
     [ConsoleError "Database error:" (QueryRejected "ECONNREFUSED")]).
Proof. vm_compute. reflexivity. Qed.

(** * Further properties of the back end *)

(** ** The middleware *)

Lemma falsy_field_rejected (body : gmap string JsValue) (field : string) :
  In field ["age"; "income"; "dependents"; "riskTolerance"]%string ->
  truthy (prop body field) = false ->
  validateRecommendationInput body = Respond missingFieldsResponse.
Proof.
  intros Hin Hfalsy. unfold validateRecommendationInput. cbn [In] in Hin.
  destruct Hin as [<-|[<-|[<-|[<-|[]]]]]; rewrite Hfalsy; cbn [negb];
    rewrite ?orb_true_r; reflexivity.
Qed.

Lemma accepted_risk (body : gmap string JsValue) (p : Profile) :
  validateRecommendationInput body = Next ->
  profileOfBody body = Some p ->
  riskTolerance p = "Low"%string \/ riskTolerance p = "Medium"%string
  \/ riskTolerance p = "High"%string.
Proof.
  unfold validateRecommendationInput, profileOfBody.
  destruct (negb (truthy (prop body "age")) || _ || _ || _); [discriminate|].
  destruct (notIntegerBetween (prop body "age") 18 80); [discriminate|].
  destruct (notIntegerBetween (prop body "income") 20000 10000000); [discriminate|].
  destruct (notIntegerBetween (prop body "dependents") 0 10); [discriminate|].
  destruct (negb (includesRisk (prop body "riskTolerance"))) eqn:Hr; [discriminate|].
  intros _.
  destruct (prop body "age"); try discriminate.
  destruct (prop body "income"); try discriminate.
  destruct (prop body "dependents"); try discriminate.
  destruct (prop body "riskTolerance") as [| | | |s|]; try discriminate.
  intros [= <-]. cbn [riskTolerance].
  apply negb_false_iff in Hr. cbn [includesRisk existsb] in Hr.
  repeat (apply orb_prop in Hr as [Hr|Hr]); try discriminate;
    apply String.eqb_eq in Hr; auto.
Qed.

(** X1.  Every valid profile with one to ten dependents passes the
    middleware. *)
Theorem X1_valid_profile_accepted (a i d : Z) (r : RiskTolerance) :
  validProfile a i d -> 1 <= d ->
  validateRecommendationInput (bodyOf a i d (riskName r)) = Next.
Proof. apply valid_body_accepted. Qed.

Lemma X1_valid_profile_accepted_witness :
  validateRecommendationInput (bodyOf 80 10000000 10 "High") = Next.
Proof.
  apply (X1_valid_profile_accepted 80 10000000 10 High); [unfold validProfile|]; lia.
Defined.

(** X2.  The presence test comes first and is a truthiness test: a body in
    which any of the four fields is absent or holds a falsy value ([null],
    [false], [0], [-0], [NaN], the empty string) is answered "Missing required
    fields", whatever the other fields hold, valid or not. *)
Theorem X2_falsy_field_is_missing (a i d r v : JsValue) :
  In v [JsUndefined; JsNull; JsBool false; JsNumber 0; JsNumber PrimFloat.neg_zero;
        JsNumber nan; JsString ""] ->
  validateRecommendationInput (body4 v i d r) = Respond missingFieldsResponse
  /\ validateRecommendationInput (body4 a v d r) = Respond missingFieldsResponse
  /\ validateRecommendationInput (body4 a i v r) = Respond missingFieldsResponse
  /\ validateRecommendationInput (body4 a i d v) = Respond missingFieldsResponse.
Proof.
  intros Hv.
  assert (Hfalsy : truthy v = false).
  { cbn [In] in Hv. repeat (destruct Hv as [<-|Hv]; [reflexivity|]). destruct Hv. }
  repeat split.
  - apply (falsy_field_rejected _ "age"); [cbn; tauto|].
    now destruct (body4_props v i d r) as (-> & _).
  - apply (falsy_field_rejected _ "income"); [cbn; tauto|].
    now destruct (body4_props a v d r) as (_ & -> & _).
  - apply (falsy_field_rejected _ "dependents"); [cbn; tauto|].
    now destruct (body4_props a i v r) as (_ & _ & -> & _).
  - apply (falsy_field_rejected _ "riskTolerance"); [cbn; tauto|].
    now destruct (body4_props a i d v) as (_ & _ & _ & ->).
Qed.

Lemma X2_falsy_field_is_missing_witness :
  validateRecommendationInput
    (body4 (JsNumber 30) (JsNumber 0) (JsNumber 2) (JsString "Medium"))
  = Respond missingFieldsResponse.
Proof.
  apply (X2_falsy_field_is_missing (JsNumber 30) (JsNumber 75000) (JsNumber 2)
           (JsString "Medium") (JsNumber 0)).
  cbn. tauto.
Defined.

(** X3.  No coercion: with all four fields truthy, an [age] that is not a
    Number (a numeric string, [true], an array or object) gets the age
    message; behind a valid age the same holds for [income], and behind a
    valid age and income for [dependents]. *)
Theorem X3_non_numbers_rejected (v other1 other2 r : JsValue) (a i : Z) :
  (forall x, v <> JsNumber x) ->
  truthy v = true -> truthy other1 = true -> truthy other2 = true ->
  truthy r = true ->
  18 <= a <= 80 -> 20000 <= i <= 10000000 ->
  validateRecommendationInput (body4 v other1 other2 r) = Respond ageResponse
  /\ validateRecommendationInput (body4 (JsNumber (Z2Num a)) v other2 r)
     = Respond incomeResponse
  /\ validateRecommendationInput
       (body4 (JsNumber (Z2Num a)) (JsNumber (Z2Num i)) v r)
     = Respond dependentsResponse.
Proof.
  intros Hnot Hv H1 H2 Hr Ha Hi.
  assert (Hbad : forall lo hi, notIntegerBetween v lo hi = true).
  { intros lo hi. destruct v; try reflexivity. now destruct (Hnot x). }
  rewrite !validate_body4, Hv, H1, H2, Hr, !Hbad.
  destruct (numberAccepted_spec _ _ _ (age_accepted a Ha)) as [-> ->].
  destruct (numberAccepted_spec _ _ _ (income_accepted i Hi)) as [-> ->].
  repeat split.
Qed.

Lemma X3_non_numbers_rejected_witness :
  validateRecommendationInput
    (body4 (JsString "30") (JsNumber 75000) (JsNumber 2) (JsString "Medium"))
  = Respond ageResponse.
Proof.
  apply (X3_non_numbers_rejected (JsString "30") (JsNumber 75000) (JsNumber 2)
           (JsString "Medium") 30 75000); try reflexivity; try lia.
  intros x. discriminate.
Defined.

(** ** The route *)

Lemma handler_log (env : Env) (p : Profile) (log : list LogLine) :
  snd (recommendationHandler env p log)
  = log ++ [storeLine (pool_query env (submissionOf p))].
Proof.
  unfold recommendationHandler, tryCatch, bind, await, firstRowId, ret, throw,
    console_log, console_error, storeLine.
  change (pool_query env _) with (pool_query env (submissionOf p)).
  destruct (pool_query env (submissionOf p)) as [e|[|id rows]]; reflexivity.
Qed.

Lemma recommendation_fields (p : Profile) :
  type (getRecommendation p) = l_type (adjustForRisk p (initialLocals p))
  /\ duration (getRecommendation p)
     = decimal (l_duration (adjustForRisk p (initialLocals p))) +:+ " years"
  /\ explanation (getRecommendation p)
     = l_explanation (adjustForRisk p (initialLocals p))
  /\ coverage (getRecommendation p) = "$" +:+ toLocaleString (coverageAmount p).
Proof.
  destruct (early_steps_keep p) as (Htype & Hduration & Hexplanation).
  unfold getRecommendation, coverageAmount, finalLocals, roundCoverage, adjustForRisk.
  destruct (String.eqb (riskTolerance p) "Low"),
    (String.eqb (riskTolerance p) "Medium"), (String.eqb (riskTolerance p) "High");
    cbn [type duration explanation coverage l_type l_duration l_explanation initialLocals];
    rewrite ?Htype, ?Hduration, ?Hexplanation; repeat split.
Qed.

(** X4.  A request that the middleware rejects goes no further: the caller
    gets the middleware's response, nothing is written to the console and the
    outcome does not depend on the store. *)
Theorem X4_rejected_request_stops (env : Env) (body : gmap string JsValue)
    (res : Response) (log : list LogLine) :
  validateRecommendationInput body = Respond res ->
  postRecommendation env body log = (inr res, log) /\ status res = 400.
Proof. apply rejected_request_stops. Qed.

Lemma X4_rejected_request_stops_witness :
  postRecommendation
    {| pool_query := fun _ => inr [7]; now := "2024-01-15T10:30:00.000Z" |}
    (bodyOf 17 75000 2 "Medium") []
  = (inr ageResponse, []) /\ status ageResponse = 400.
Proof.
  apply X4_rejected_request_stops. vm_compute. reflexivity.
Defined.

(** X5.  The handler's own 500 answer is out of reach.  For every body that
    [express.json] has parsed into an object, and every way the INSERT
    settles (rows, no row, rejection), no exception escapes the route and the
    answer it sends has status 200 or 400: the [catch] that answers 500
    "Failed to generate recommendation" is never entered.  (A body that
    [express.json] refuses never reaches the route, and the route answers only
    once the query has settled; neither is part of this statement.) *)
Theorem X5_handler_never_answers_500 (env : Env) (body : gmap string JsValue)
    (log : list LogLine) :
  exists res,
    fst (postRecommendation env body log) = inr res
    /\ (status res = 200 \/ status res = 400).
Proof.
  destruct (validateRecommendationInput body) as [res|] eqn:Hverdict.
  - exists res. destruct (rejected_request_stops env body res log Hverdict)
      as [-> Hstatus]. auto.
  - destruct (accepted_body_is_profile body Hverdict) as [p Hp].
    exists (successResponse p (now env)). split; [|left; reflexivity].
    unfold postRecommendation. rewrite Hverdict, Hp. apply handler_responds.
Qed.

(** X6.  An accepted request writes exactly one line to the console, and
    which one is decided by what the store did with the INSERT, whose
    parameters are the four request fields followed by the four fields of the
    recommendation that is sent: the stored id when a row came back, the
    rejection reason when the query failed, and the TypeError of reading [id]
    when the query resolved without a row.  The line "Recommendation
    generation error" is never written. *)
Theorem X6_one_console_line (env : Env) (body : gmap string JsValue)
    (p : Profile) (log : list LogLine) :
  validateRecommendationInput body = Next ->
  profileOfBody body = Some p ->
  postRecommendation env body log
  = (inr (successResponse p (now env)),
     log ++ [storeLine (pool_query env (submissionOf p))]).
Proof.
  intros Haccepted Hp. unfold postRecommendation. rewrite Haccepted, Hp.
  rewrite (surjective_pairing (recommendationHandler env p log)).
  now rewrite handler_responds, handler_log.
Qed.

Lemma X6_one_console_line_witness :
  postRecommendation {| pool_query := fun _ => inr []; now := "T" |} readmeBody []
  = (inr (successResponse (profileOf 30 75000 2 "Medium") "T"),
     [ConsoleError "Database error:"
        (TypeError "Cannot read properties of undefined (reading 'id')")]).
Proof.
  apply (X6_one_console_line {| pool_query := fun _ => inr []; now := "T" |}
           readmeBody (profileOf 30 75000 2 "Medium") []);
    vm_compute; reflexivity.
Defined.

(** X7.  End to end: for every valid profile with one to ten dependents, and
    whatever the store does, the caller gets status 200 whose recommendation
    shows as coverage the exactly rounded amount of the specification, "$" and
    thousands separators included. *)
Theorem X7_valid_request_served (env : Env) (a i d : Z) (r : RiskTolerance)
    (log : list LogLine) :
  validProfile a i d -> 1 <= d ->
  exists rec,
    fst (postRecommendation env (bodyOf a i d (riskName r)) log)
    = inr {| status := 200; payload := SuccessJson rec (now env) |}
    /\ coverage rec = "$" +:+ grouped (spec_coverage a i d r)
    /\ rec = getRecommendation (profileOf a i d (riskName r)).
Proof.
  intros Hvalid Hd.
  exists (getRecommendation (profileOf a i d (riskName r))).
  split; [|split; [|reflexivity]].
  - unfold postRecommendation. rewrite valid_body_accepted by assumption.
    assert (Hp : profileOfBody (bodyOf a i d (riskName r))
                 = Some (profileOf a i d (riskName r))).
    { unfold profileOfBody, bodyOf.
      destruct (body4_props (JsNumber (Z2Num a)) (JsNumber (Z2Num i))
                  (JsNumber (Z2Num d)) (JsString (riskName r))) as (-> & -> & -> & ->).
      reflexivity. }
    rewrite Hp. apply handler_responds.
  - destruct (recommendation_fields (profileOf a i d (riskName r))) as (_ & _ & _ & ->).
    destruct (coverage_value a i d r Hvalid) as [_ ->]. reflexivity.
Qed.

Lemma X7_valid_request_served_witness :
  exists rec,
    fst (postRecommendation
           {| pool_query := fun _ => inl (QueryRejected "timeout"); now := "T" |}
           (bodyOf 30 75000 2 (riskName Medium)) [])
    = inr {| status := 200; payload := SuccessJson rec "T" |}
    /\ coverage rec = "$" +:+ grouped (spec_coverage 30 75000 2 Medium)
    /\ rec = getRecommendation (profileOf 30 75000 2 (riskName Medium)).
Proof.
  apply (X7_valid_request_served
           {| pool_query := fun _ => inl (QueryRejected "timeout"); now := "T" |}
           30 75000 2 Medium []); [unfold validProfile|]; lia.
Defined.

(** X8.  No silent fallback behind the middleware: for every accepted body
    the recommendation carries one of the three explanation templates, never
    the empty explanation of the engine's pre-[switch] defaults, and its
    duration is "15 years", "20 years" or "30 years" accordingly. *)
Theorem X8_accepted_gets_template (body : gmap string JsValue) (p : Profile) :
  validateRecommendationInput body = Next ->
  profileOfBody body = Some p ->
  (riskTolerance p = "Low"%string
   /\ duration (getRecommendation p) = "15 years"%string
   /\ explanation (getRecommendation p)
      = "Conservative profile: moderate coverage, shorter term."%string)
  \/ (riskTolerance p = "Medium"%string
      /\ duration (getRecommendation p) = "20 years"%string
      /\ explanation (getRecommendation p)
         = "Balanced profile: standard coverage and term."%string)
  \/ (riskTolerance p = "High"%string
      /\ duration (getRecommendation p) = "30 years"%string
      /\ explanation (getRecommendation p)
         = "Aggressive profile: higher coverage, longer term, whole life."%string).
Proof.
  intros Haccepted Hp.
  destruct (recommendation_fields p) as (_ & Hduration & Hexplanation & _).
  rewrite Hduration, Hexplanation. unfold adjustForRisk.
  destruct (accepted_risk body p Haccepted Hp) as [Hr|[Hr|Hr]]; rewrite Hr;
    [left|right; left|right; right]; repeat split.
Qed.

Lemma X8_accepted_gets_template_witness :
  (riskTolerance (profileOf 30 75000 2 "Medium") = "Low"%string
   /\ duration (getRecommendation (profileOf 30 75000 2 "Medium")) = "15 years"%string
   /\ explanation (getRecommendation (profileOf 30 75000 2 "Medium"))
      = "Conservative profile: moderate coverage, shorter term."%string)
  \/ (riskTolerance (profileOf 30 75000 2 "Medium") = "Medium"%string
      /\ duration (getRecommendation (profileOf 30 75000 2 "Medium")) = "20 years"%string
      /\ explanation (getRecommendation (profileOf 30 75000 2 "Medium"))
         = "Balanced profile: standard coverage and term."%string)
  \/ (riskTolerance (profileOf 30 75000 2 "Medium") = "High"%string
      /\ duration (getRecommendation (profileOf 30 75000 2 "Medium")) = "30 years"%string
      /\ explanation (getRecommendation (profileOf 30 75000 2 "Medium"))
         = "Aggressive profile: higher coverage, longer term, whole life."%string).
Proof.
  apply (X8_accepted_gets_template readmeBody); vm_compute; reflexivity.
Defined.

(** X9.  Whatever the profile, valid or not, the policy type is Whole Life
    exactly when the risk tolerance is the string "High", and Term Life
    otherwise. *)
Theorem X9_whole_life_iff_high (p : Profile) :
  (riskTolerance p = "High"%string
   /\ type (getRecommendation p) = "Whole Life"%string)
  \/ (riskTolerance p <> "High"%string
      /\ type (getRecommendation p) = "Term Life"%string).
Proof.
  destruct (recommendation_fields p) as (-> & _). unfold adjustForRisk.
  destruct (String.eqb_spec (riskTolerance p) "Low") as [Hlow|_].
  - right. rewrite Hlow. split; [discriminate|reflexivity].
  - destruct (String.eqb_spec (riskTolerance p) "Medium") as [Hmedium|_].
    + right. rewrite Hmedium. split; [discriminate|reflexivity].
    + destruct (String.eqb_spec (riskTolerance p) "High") as [Hhigh|Hother].
      * left. split; [assumption|reflexivity].
      * right. split; [assumption|reflexivity].
Qed.

(** ** The engine on valid profiles *)

Lemma recommendation_eq (x y : Recommendation) :
  type x = type y -> coverage x = coverage y -> duration x = duration y ->
  explanation x = explanation y -> x = y.
Proof. destruct x, y. cbn. congruence. Qed.

Lemma tenths_bounds (a : Z) (r : RiskTolerance) :
  64 <= ageTenths a * riskTenths r <= 156.
Proof. unfold ageTenths. destruct (a <? 30), (50 <? a), r; cbn; lia. Qed.

(** X10.  For every valid profile the coverage amount lies between 128,000
    and 159,900,000. *)
Theorem X10_coverage_bounds (a i d : Z) (r : RiskTolerance) :
  validProfile a i d ->
  exists c,
    Num2Z (coverageAmount (profileOf a i d (riskName r))) = Some c
    /\ 128000 <= c <= 159900000.
Proof.
  intros Hvalid. exists (spec_coverage a i d r).
  split; [apply (coverage_value a i d r Hvalid)|].
  destruct Hvalid as (Ha & Hi & Hd).
  rewrite spec_coverage_closed. unfold exactZ.
  pose proof (tenths_bounds a r) as Hm.
  assert (128 <= (2 * ((i + 25000 * d) * (ageTenths a * riskTenths r)) + 10000) / 20000
          <= 159900); [|lia].
  split.
  - apply Z.div_le_lower_bound; nia.
  - apply Z.lt_succ_r. apply Z.div_lt_upper_bound; nia.
Qed.

(** Both bounds are reached: by the oldest bracket with low risk on the lowest
    income without dependents, and by the youngest bracket with high risk on
    the highest income with ten dependents. *)
Lemma X10_coverage_bounds_witness :
  (exists c,
      Num2Z (coverageAmount (profileOf 51 20000 0 (riskName Low))) = Some c
      /\ 128000 <= c <= 159900000)
  /\ Num2Z (coverageAmount (profileOf 51 20000 0 "Low")) = Some 128000
  /\ Num2Z (coverageAmount (profileOf 29 10000000 10 "High")) = Some 159900000.
Proof.
  split; [|split; vm_compute; reflexivity].
  apply (X10_coverage_bounds 51 20000 0 Low). unfold validProfile. lia.
Defined.

(** X11.  Holding the rest of a valid profile fixed, a higher income never
    gives a smaller coverage amount. *)
Theorem X11_income_monotone (a i i' d : Z) (r : RiskTolerance) :
  validProfile a i d -> validProfile a i' d -> i <= i' ->
  exists c c',
    Num2Z (coverageAmount (profileOf a i d (riskName r))) = Some c
    /\ Num2Z (coverageAmount (profileOf a i' d (riskName r))) = Some c'
    /\ c <= c'.
Proof.
  intros Hvalid Hvalid' Hle.
  exists (spec_coverage a i d r), (spec_coverage a i' d r).
  split; [apply (coverage_value a i d r Hvalid)|].
  split; [apply (coverage_value a i' d r Hvalid')|].
  rewrite !spec_coverage_closed. unfold exactZ.
  pose proof (tenths_bounds a r) as Hm.
  apply Z.mul_le_mono_nonneg_r; [lia|].
  apply Z.div_le_mono; [lia|]. nia.
Qed.

Lemma X11_income_monotone_witness :
  exists c c',
    Num2Z (coverageAmount (profileOf 40 20000 1 (riskName Low))) = Some c
    /\ Num2Z (coverageAmount (profileOf 40 20001 1 (riskName Low))) = Some c'
    /\ c <= c'.
Proof.
  apply (X11_income_monotone 40 20000 20001 1 Low); unfold validProfile; lia.
Defined.

(** X12.  For every valid profile, Low risk tolerance gives at most the
    coverage of Medium, and Medium at most the coverage of High. *)
Theorem X12_risk_ordering (a i d : Z) :
  validProfile a i d ->
  exists low medium high,
    Num2Z (coverageAmount (profileOf a i d "Low")) = Some low
    /\ Num2Z (coverageAmount (profileOf a i d "Medium")) = Some medium
    /\ Num2Z (coverageAmount (profileOf a i d "High")) = Some high
    /\ low <= medium <= high.
Proof.
  intros Hvalid.
  exists (spec_coverage a i d Low), (spec_coverage a i d Medium),
    (spec_coverage a i d High).
  split; [apply (coverage_value a i d Low Hvalid)|].
  split; [apply (coverage_value a i d Medium Hvalid)|].
  split; [apply (coverage_value a i d High Hvalid)|].
  destruct Hvalid as (Ha & Hi & Hd).
  rewrite !spec_coverage_closed. unfold exactZ. cbn [riskTenths].
  assert (Hm : 8 <= ageTenths a <= 12).
  { unfold ageTenths. destruct (a <? 30), (50 <? a); lia. }
  split; (apply Z.mul_le_mono_nonneg_r; [lia|]); apply Z.div_le_mono; try lia; nia.
Qed.

Lemma X12_risk_ordering_witness :
  exists low medium high,
    Num2Z (coverageAmount (profileOf 30 75000 2 "Low")) = Some low
    /\ Num2Z (coverageAmount (profileOf 30 75000 2 "Medium")) = Some medium
    /\ Num2Z (coverageAmount (profileOf 30 75000 2 "High")) = Some high
    /\ low <= medium <= high.
Proof.
  apply (X12_risk_ordering 30 75000 2). unfold validProfile. lia.
Defined.

(** X13.  Within a bracket the age does not matter: two valid profiles that
    differ only in age, both ages below 30, or both from 30 to 50, or both
    above 50, get the same recommendation. *)
Theorem X13_age_matters_by_bracket (a a' i d : Z) (r : RiskTolerance) :
  validProfile a i d -> validProfile a' i d ->
  (a < 30 /\ a' < 30) \/ (30 <= a <= 50 /\ 30 <= a' <= 50) \/ (50 < a /\ 50 < a') ->
  getRecommendation (profileOf a i d (riskName r))
  = getRecommendation (profileOf a' i d (riskName r)).
Proof.
  intros Hvalid Hvalid' Hbracket.
  assert (Hcoverage : coverageAmount (profileOf a i d (riskName r))
                      = coverageAmount (profileOf a' i d (riskName r))).
  { rewrite !coverage_exact by assumption. rewrite !spec_coverage_closed.
    f_equal. f_equal. unfold ageTenths.
    destruct (Z.ltb_spec a 30), (Z.ltb_spec a' 30), (Z.ltb_spec 50 a),
      (Z.ltb_spec 50 a'); lia. }
  destruct (recommendation_fields (profileOf a i d (riskName r)))
    as (Ht & Hd & He & Hc).
  destruct (recommendation_fields (profileOf a' i d (riskName r)))
    as (Ht' & Hd' & He' & Hc').
  apply recommendation_eq.
  - rewrite Ht, Ht'. destruct r; reflexivity.
  - now rewrite Hc, Hc', Hcoverage.
  - rewrite Hd, Hd'. destruct r; reflexivity.
  - rewrite He, He'. destruct r; reflexivity.
Qed.

Lemma X13_age_matters_by_bracket_witness :
  getRecommendation (profileOf 18 75000 2 (riskName High))
  = getRecommendation (profileOf 29 75000 2 (riskName High)).
Proof.
  apply X13_age_matters_by_bracket; unfold validProfile; lia.
Defined.

(** X14.  Across brackets the coverage falls with age: with the rest of a
    valid profile fixed, an age below 30 gets at least the coverage of an age
    from 30 to 50, which gets at least the coverage of an age above 50. *)
Theorem X14_age_ordering (young middle old i d : Z) (r : RiskTolerance) :
  validProfile young i d -> validProfile middle i d -> validProfile old i d ->
  young < 30 -> 30 <= middle <= 50 -> 50 < old ->
  exists cy cm co,
    Num2Z (coverageAmount (profileOf young i d (riskName r))) = Some cy
    /\ Num2Z (coverageAmount (profileOf middle i d (riskName r))) = Some cm
    /\ Num2Z (coverageAmount (profileOf old i d (riskName r))) = Some co
    /\ co <= cm <= cy.
Proof.
  intros Hy Hm Ho Hyoung Hmiddle Hold.
  exists (spec_coverage young i d r), (spec_coverage middle i d r),
    (spec_coverage old i d r).
  split; [apply (coverage_value young i d r Hy)|].
  split; [apply (coverage_value middle i d r Hm)|].
  split; [apply (coverage_value old i d r Ho)|].
  destruct Hy as (_ & Hi & Hd).
  rewrite !spec_coverage_closed. unfold exactZ, ageTenths.
  destruct (Z.ltb_spec young 30), (Z.ltb_spec middle 30), (Z.ltb_spec 50 middle),
    (Z.ltb_spec old 30), (Z.ltb_spec 50 old); try lia.
  assert (Hr : 8 <= riskTenths r <= 13) by (destruct r; cbn; lia).
  split; (apply Z.mul_le_mono_nonneg_r; [lia|]); apply Z.div_le_mono; try lia; nia.
Qed.

Lemma X14_age_ordering_witness :
  exists cy cm co,
    Num2Z (coverageAmount (profileOf 29 75000 2 (riskName Medium))) = Some cy
    /\ Num2Z (coverageAmount (profileOf 30 75000 2 (riskName Medium))) = Some cm
    /\ Num2Z (coverageAmount (profileOf 51 75000 2 (riskName Medium))) = Some co
    /\ co <= cm <= cy.
Proof.
  apply (X14_age_ordering 29 30 51 75000 2 Medium); unfold validProfile; lia.
Defined.

(** X15.  With no multiplier in play (age 30 to 50, Medium risk) each further
    dependent adds exactly 250,000 to the coverage amount. *)
Theorem X15_dependent_adds_250000 (a i d : Z) :
  validProfile a i d -> 30 <= a <= 50 -> d < 10 ->
  exists c,
    Num2Z (coverageAmount (profileOf a i d "Medium")) = Some c
    /\ Num2Z (coverageAmount (profileOf a i (d + 1) "Medium")) = Some (c + 250000).
Proof.
  intros (Ha & Hi & Hd) Hmiddle Hless.
  exists (spec_coverage a i d Medium).
  split; [apply (coverage_value a i d Medium); unfold validProfile; lia|].
  replace (spec_coverage a i d Medium + 250000) with (spec_coverage a i (d + 1) Medium).
  - apply (coverage_value a i (d + 1) Medium). unfold validProfile. lia.
  - rewrite !spec_coverage_closed. unfold exactZ, ageTenths. cbn [riskTenths].
    destruct (Z.ltb_spec a 30), (Z.ltb_spec 50 a); try lia.
    replace (2 * ((i + 25000 * (d + 1)) * (10 * 10)) + 10000)
      with (2 * ((i + 25000 * d) * (10 * 10)) + 10000 + 250 * 20000) by lia.
    rewrite Z.div_add by lia. lia.
Qed.

Lemma X15_dependent_adds_250000_witness :
  exists c,
    Num2Z (coverageAmount (profileOf 30 75000 2 "Medium")) = Some c
    /\ Num2Z (coverageAmount (profileOf 30 75000 (2 + 1) "Medium")) = Some (c + 250000).
Proof.
  apply (X15_dependent_adds_250000 30 75000 2); [unfold validProfile|..]; lia.
Defined.

(** ** The form of the front end against this back end *)

Lemma classify_NZero (x : float) : classify x = NZero -> x = PrimFloat.neg_zero.
Proof.
  rewrite FloatAxioms.classify_spec. intros Hclass.
  apply FloatAxioms.Prim2SF_inj.
  unfold SF64classify, SFclassify in Hclass.
  destruct (Prim2SF x) as [[|]|[|]| |[|] m e]; try discriminate Hclass;
    try reflexivity;
    destruct (Zpos (digits2_pos m) =? FloatOps.prec); discriminate Hclass.
Qed.

(** A Number that the middleware accepts survives the JSON round trip. *)
Lemma jsonNumber_accepted (x lo hi : float) :
  numberAccepted x lo hi = true -> jsonNumber x = JsNumber x.
Proof.
  intros Haccepted.
  destruct (numberAccepted_spec x lo hi Haccepted) as [Htruthy Hrange].
  unfold jsonNumber. destruct (classify x) eqn:Hclass; try reflexivity.
  - apply classify_NZero in Hclass. subst x. discriminate Htruthy.
  - cbn [notIntegerBetween] in Hrange. unfold isInteger, Num2Z in Hrange.
    rewrite Hclass in Hrange. discriminate Hrange.
  - cbn [notIntegerBetween] in Hrange. unfold isInteger, Num2Z in Hrange.
    rewrite Hclass in Hrange. discriminate Hrange.
  - cbn [notIntegerBetween] in Hrange. unfold isInteger, Num2Z in Hrange.
    rewrite Hclass in Hrange. discriminate Hrange.
Qed.

Lemma orElse_not_empty (a : option string) (b : string) :
  b <> ""%string -> orElse a b <> ""%string.
Proof.
  intros Hb. unfold orElse. destruct a as [s|]; [|assumption].
  destruct (String.eqb_spec s ""); assumption.
Qed.

(** X16.  Whatever the fetch yields, [handleSubmit] ends with the spinner
    off and the form data untouched, and in exactly one of two states: a
    recommendation shown with no error, which needs a 2xx answer carrying
    [success] and a recommendation; or no recommendation and a non-empty error
    message, the [isSubmitted] flag left as it was. *)
Theorem X16_submit_shows_result_or_error (st : UiState) (outcome : FetchOutcome) :
  let st' := handleSubmit st outcome in
  loading st' = false
  /\ formData st' = formData st
  /\ ((exists res rec timestamp,
          outcome = Fetched res /\ 200 <= status res <= 299
          /\ payload res = SuccessJson rec timestamp
          /\ recommendation st' = Some rec /\ error st' = None
          /\ isSubmitted st' = true)
      \/ (exists message,
             recommendation st' = None /\ error st' = Some message
             /\ message <> ""%string /\ isSubmitted st' = isSubmitted st)).
Proof.
  unfold handleSubmit, readAnswer.
  destruct outcome as [message|[code [e required m|rec timestamp]]];
    cbn [status payload].
  - repeat split. right. eexists. repeat split.
    apply orElse_not_empty. discriminate.
  - destruct (negb ((200 <=? code) && (code <=? 299))); repeat split; right;
      eexists; repeat split; apply orElse_not_empty; discriminate.
  - destruct ((200 <=? code) && (code <=? 299)) eqn:Hok; cbn [negb].
    + repeat split. left. exists (mkResponse code (SuccessJson rec timestamp)), rec, timestamp.
      apply andb_prop in Hok as [Hlo Hhi]. repeat split; cbn; lia.
    + repeat split. right. eexists. repeat split.
      apply orElse_not_empty. discriminate.
Qed.

(** X17.  A form whose number of dependents is 0 (the initial value, an empty
    field, or a typed 0) never gets a recommendation from this back end: the
    route answers "Missing required fields", whatever the other fields and
    the store, and the page shows that text as the error. *)
Theorem X17_no_dependents_shows_missing_fields (env : Env) (st : UiState)
    (log : list LogLine) :
  f_dependents (formData st) = 0%float ->
  postRecommendation env (requestBody (formData st)) log
  = (inr missingFieldsResponse, log)
  /\ handleSubmit st (Fetched missingFieldsResponse)
     = {| formData := formData st;
          recommendation := None;
          isSubmitted := isSubmitted st;
          loading := false;
          error := Some "Missing required fields"%string |}.
Proof.
  intros Hzero. split; [|reflexivity].
  apply rejected_request_stops.
  apply (falsy_field_rejected _ "dependents"); [cbn; tauto|].
  unfold requestBody. rewrite Hzero.
  now destruct (body4_props (jsonNumber (f_age (formData st)))
                  (jsonNumber (f_income (formData st))) (jsonNumber 0)
                  (JsString (f_riskTolerance (formData st)))) as (_ & _ & -> & _).
Qed.

Lemma X17_no_dependents_shows_missing_fields_witness :
  postRecommendation {| pool_query := fun _ => inr [1]; now := "T" |}
    (requestBody (formData initialUi)) []
  = (inr missingFieldsResponse, [])
  /\ handleSubmit initialUi (Fetched missingFieldsResponse)
     = {| formData := formData initialUi;
          recommendation := None;
          isSubmitted := isSubmitted initialUi;
          loading := false;
          error := Some "Missing required fields"%string |}.
Proof.
  apply (X17_no_dependents_shows_missing_fields
           {| pool_query := fun _ => inr [1]; now := "T" |} initialUi []).
  reflexivity.
Defined.

(** X18.  A form holding a valid profile with one to ten dependents gets its
    recommendation shown, whatever the store does: the route answers 200 and
    the page shows the engine's recommendation for that profile, with no
    error. *)
Theorem X18_valid_form_shows_recommendation (env : Env) (st : UiState)
    (a i d : Z) (r : RiskTolerance) (log : list LogLine) :
  validProfile a i d -> 1 <= d ->
  formData st = mkFormData (Z2Num a) (Z2Num i) (Z2Num d) (riskName r) ->
  let p := profileOf a i d (riskName r) in
  fst (postRecommendation env (requestBody (formData st)) log)
  = inr (successResponse p (now env))
  /\ handleSubmit st (Fetched (successResponse p (now env)))
     = {| formData := formData st;
          recommendation := Some (getRecommendation p);
          isSubmitted := true;
          loading := false;
          error := None |}.
Proof.
  intros Hvalid Hd Hform p. split; [|reflexivity].
  destruct Hvalid as (Ha & Hi & Hd10).
  assert (Hbody : requestBody (formData st) = bodyOf a i d (riskName r)).
  { rewrite Hform. unfold requestBody, bodyOf.
    cbn [f_age f_income f_dependents f_riskTolerance].
    rewrite (jsonNumber_accepted _ _ _ (age_accepted a Ha)).
    rewrite (jsonNumber_accepted _ _ _ (income_accepted i Hi)).
    rewrite (jsonNumber_accepted _ _ _ (dependents_accepted d ltac:(lia))).
    reflexivity. }
  rewrite Hbody. unfold postRecommendation.
  rewrite valid_body_accepted by (unfold validProfile; lia).
  assert (Hp : profileOfBody (bodyOf a i d (riskName r)) = Some p).
  { unfold profileOfBody, bodyOf.
    destruct (body4_props (JsNumber (Z2Num a)) (JsNumber (Z2Num i))
                (JsNumber (Z2Num d)) (JsString (riskName r))) as (-> & -> & -> & ->).
    reflexivity. }
  rewrite Hp. apply handler_responds.
Qed.

Lemma X18_valid_form_shows_recommendation_witness :
  fst (postRecommendation
         {| pool_query := fun _ => inl (QueryRejected "ECONNREFUSED"); now := "T" |}
         (requestBody (mkFormData (Z2Num 30) (Z2Num 75000) (Z2Num 2) (riskName Medium)))
         [])
  = inr (successResponse (profileOf 30 75000 2 (riskName Medium)) "T").
Proof.
  apply (X18_valid_form_shows_recommendation
           {| pool_query := fun _ => inl (QueryRejected "ECONNREFUSED"); now := "T" |}
           (mkUiState (mkFormData (Z2Num 30) (Z2Num 75000) (Z2Num 2) (riskName Medium))
                      None false false None)
           30 75000 2 Medium []); [unfold validProfile; lia|lia|reflexivity].
Defined.

(** ** What is sent to the store *)

Lemma digitsRev_length (fuel : nat) :
  forall (n : nat) (z : Z),
    (1 <= n)%nat -> 0 <= z < 10 ^ Z.of_nat n ->
    (List.length (digitsRev fuel z) <= n)%nat.
Proof.
  induction fuel as [|fuel IH]; intros n z Hn Hz; cbn [digitsRev List.length].
  - lia.
  - destruct (Z.ltb_spec z 10) as [Hsmall|Hbig]; cbn [List.length]; [lia|].
    destruct n as [|[|n]]; [lia| |].
    + change (10 ^ Z.of_nat 1) with 10 in Hz. lia.
    + assert (Hpow : 10 ^ Z.of_nat (S (S n)) = 10 * 10 ^ Z.of_nat (S n)).
      { rewrite (Nat2Z.inj_succ (S n)), Z.pow_succ_r; lia. }
      apply le_n_S. apply IH; [lia|]. split.
      * apply Z.div_pos; lia.
      * apply Z.div_lt_upper_bound; lia.
Qed.

Lemma commasRev_short (ds : list ascii) :
  (List.length ds <= 9)%nat -> (List.length (commasRev ds) <= 11)%nat.
Proof.
  intros Hlen.
  do 10 (destruct ds as [|? ds]; [cbn; lia|]). cbn in Hlen. lia.
Qed.

Lemma string_of_chars_length (cs : list ascii) :
  String.length (string_of_chars cs) = List.length cs.
Proof.
  unfold string_of_chars.
  induction cs as [|c cs IH]; cbn; [reflexivity|]. now rewrite IH.
Qed.

Lemma grouped_length (z : Z) :
  0 <= z < 1000000000 -> (String.length (grouped z) <= 11)%nat.
Proof.
  intros Hz. unfold grouped.
  rewrite string_of_chars_length, length_rev. apply commasRev_short.
  unfold decimalRev. apply (digitsRev_length _ 9 z); [lia|].
  change (10 ^ Z.of_nat 9) with 1000000000. lia.
Qed.

(** X19.  For every valid profile the text parameters of the INSERT fit
    their columns of the [submissions] table: the risk tolerance VARCHAR(10),
    the recommendation type VARCHAR(20), the coverage VARCHAR(32) (it has at
    most 12 characters) and the duration VARCHAR(16). *)
Theorem X19_submission_fits_columns (a i d : Z) (r : RiskTolerance) :
  validProfile a i d ->
  fitsTextColumns (submissionOf (profileOf a i d (riskName r)))
  /\ (String.length (s_coverage (submissionOf (profileOf a i d (riskName r)))) <= 12)%nat.
Proof.
  intros Hvalid.
  assert (Hcoverage :
    (String.length (coverage (getRecommendation (profileOf a i d (riskName r))))
     <= 12)%nat).
  { destruct (recommendation_fields (profileOf a i d (riskName r))) as (_ & _ & _ & ->).
    destruct (coverage_value a i d r Hvalid) as [_ ->].
    destruct (spec_coverage_thousands a i d r Hvalid) as (n & Hn & ->).
    cbn [String.append String.length]. apply le_n_S. apply grouped_length. lia. }
  destruct (recommendation_fields (profileOf a i d (riskName r)))
    as (Htype & Hduration & _ & _).
  unfold fitsTextColumns, submissionOf.
  cbn [s_risk_tolerance s_recommendation_type s_coverage s_duration].
  rewrite Htype, Hduration.
  split; [|exact Hcoverage].
  split; [destruct r; cbn; lia|].
  split; [destruct r; cbn; lia|].
  split; [lia|destruct r; vm_compute; lia].
Qed.

Lemma X19_submission_fits_columns_witness :
  fitsTextColumns (submissionOf (profileOf 29 10000000 10 (riskName High)))
  /\ (String.length
        (s_coverage (submissionOf (profileOf 29 10000000 10 (riskName High)))) <= 12)%nat.
Proof.
  apply X19_submission_fits_columns. unfold validProfile. lia.
Defined.

(** ** Fields outside the four, and rejections as the page shows them *)

(** X20.  A field other than the four is ignored: adding it to a body, with
    any value, changes neither the response nor what is logged. *)
Theorem X20_other_fields_ignored (env : Env) (body : gmap string JsValue)
    (k : string) (v : JsValue) (log : list LogLine) :
  k <> "age"%string -> k <> "income"%string -> k <> "dependents"%string ->
  k <> "riskTolerance"%string ->
  postRecommendation env (<[k := v]> body) log = postRecommendation env body log.
Proof.
  intros Hage Hincome Hdependents Hrisk.
  unfold postRecommendation, validateRecommendationInput, profileOfBody, prop.
  rewrite !lookup_insert_ne by assumption. reflexivity.
Qed.

Lemma X20_other_fields_ignored_witness :
  postRecommendation {| pool_query := fun _ => inr [3]; now := "T" |}
    (<["name"%string := JsString "Ada"]> readmeBody) []
  = postRecommendation {| pool_query := fun _ => inr [3]; now := "T" |} readmeBody [].
Proof.
  apply X20_other_fields_ignored; discriminate.
Defined.

(** X21.  Every rejection of the middleware reaches the user verbatim: when
    the body that the form sends is rejected, the page ends with no
    recommendation and with the middleware's own message as its error. *)
Theorem X21_rejection_shown_verbatim (st : UiState) (res : Response) :
  validateRecommendationInput (requestBody (formData st)) = Respond res ->
  exists message required,
    payload res = ErrorJson message required None
    /\ handleSubmit st (Fetched res)
       = {| formData := formData st;
            recommendation := None;
            isSubmitted := isSubmitted st;
            loading := false;
            error := Some message |}.
Proof.
  intros Hrejected.
  pose proof (rejection_is_listed _ res Hrejected) as Hin.
  unfold rejections in Hin. cbn [In] in Hin.
  repeat (destruct Hin as [<-|Hin]; [eexists; eexists; split; reflexivity|]).
  destruct Hin.
Qed.

Lemma X21_rejection_shown_verbatim_witness :
  exists message required,
    payload missingFieldsResponse = ErrorJson message required None
    /\ handleSubmit initialUi (Fetched missingFieldsResponse)
       = {| formData := formData initialUi;
            recommendation := None;
            isSubmitted := isSubmitted initialUi;
            loading := false;
            error := Some message |}.
Proof.
  apply (X21_rejection_shown_verbatim initialUi missingFieldsResponse).
  vm_compute. reflexivity.
Defined.
